(** * frappe.query_builder.terms: value serialisation and parameter binding

    A shallow embedding of [frappe/query_builder/terms.py]:

    - [NamedParameterWrapper]: the store of named parameters;
    - [ParameterizedValueWrapper.get_sql]: the dispatcher that renders one
      value as a literal, a constructor call or a placeholder;
    - [ParameterizedFunction.get_sql] and [SubQuery.get_sql]: the composite
      terms that forward the store to what they contain;
    - [conversion_column_value]: the conversion used when
      [frappe.is_oracledb] is set.

    Python strings are modelled by [string]; a character is a code point
    below 256, among which the decimal digits matched by [\d] are exactly
    ['0'] to ['9'].  The [print] calls of the source write to standard
    output only and are left out. *)

From Stdlib Require Import String Ascii List Bool Arith ZArith Lia.
From Stdlib Require Import DecimalString DecimalNat.
From Stdlib Require PrimFloat FinFun.
Import ListNotations.
Open Scope string_scope.

Set Implicit Arguments.

(** ** Outcomes of a call *)

(** The only exception the module can raise by itself is the [IndexError]
    of indexing an empty string. *)
Inductive Exn : Type :=
  | IndexError.

(** A call either returns or raises.  When it raises, the parameter store
    it was working on is still observable by the caller, so [Raise] keeps
    whatever state [S] the caller can see. *)
Inductive Outcome (A S : Type) : Type :=
  | Ok (a : A)
  | Raise (e : Exn) (s : S).

Arguments Ok {A S} a.
Arguments Raise {A S} e s.

(** ** Python string primitives *)

Module PyStr.

Definition quote : ascii := "'"%char.
Definition newline : ascii := "010"%char.

(** [s[0]]; [None] stands for [IndexError]. *)
Definition first (s : string) : option ascii :=
  match s with
  | EmptyString => None
  | String c _ => Some c
  end.

(** [s[-1]]; [None] stands for [IndexError]. *)
Fixpoint last (s : string) : option ascii :=
  match s with
  | EmptyString => None
  | String c EmptyString => Some c
  | String _ s' => last s'
  end.

(** [s[a:-b]] for non-negative [a] and positive [b]: an empty slice when
    the two cuts cross. *)
Definition slice (a b : nat) (s : string) : string :=
  substring a (String.length s - b - a) s.

(** [s.startswith(p)] *)
Definition startswith (s p : string) : bool := String.prefix p s.

(** [s.replace(pat, rep)] for a non-empty [pat], scanning from the left;
    [skip] characters of a match just replaced are still to be passed. *)
Fixpoint replace_from (pat rep : string) (skip : nat) (s : string) : string :=
  match s with
  | EmptyString => EmptyString
  | String c s' =>
      match skip with
      | S k => replace_from pat rep k s'
      | O =>
          if String.prefix pat s
          then rep ++ replace_from pat rep (String.length pat - 1) s'
          else String c (replace_from pat rep 0 s')
      end
  end.

(** [s.replace("", rep)]: [rep] before every character and at the end. *)
Fixpoint intersperse (rep : string) (s : string) : string :=
  match s with
  | EmptyString => rep
  | String c s' => rep ++ String c (intersperse rep s')
  end.

(** [s.replace(pat, rep)] *)
Definition replace (pat rep : string) (s : string) : string :=
  if String.eqb pat "" then intersperse rep s else replace_from pat rep 0 s.

(** [str(n)] and the [{n}] of an f-string, for a natural number. *)
Definition of_nat (n : nat) : string :=
  NilEmpty.string_of_uint (Nat.to_uint n).

Definition is_digit (c : ascii) : bool :=
  (48 <=? nat_of_ascii c)%nat && (nat_of_ascii c <=? 57)%nat.

Definition is_quote (c : ascii) : bool := Ascii.eqb c quote.

End PyStr.

(** ** The regular expressions of [conversion_column_value]

    The three patterns are sequences of [\d] and literal characters between
    [^] and [$], the first one ending in [\d+].  [re.search] without flags
    lets [^] match at position 0 only and [$] at the end of the string or
    just before a final newline. *)

Module Re.

Inductive atom : Type :=
  | Digit
  | Lit (c : ascii).

Definition atom_matches (a : atom) (c : ascii) : bool :=
  match a with
  | Digit => PyStr.is_digit c
  | Lit c' => Ascii.eqb c c'
  end.

(** Match a sequence of atoms at the start of [s]; the rest of the string
    is returned. *)
Fixpoint match_atoms (p : list atom) (s : string) : option string :=
  match p with
  | [] => Some s
  | a :: p' =>
      match s with
      | EmptyString => None
      | String c s' => if atom_matches a c then match_atoms p' s' else None
      end
  end.

(** The rest of [s] after its leading digits ([\d*], greedy). *)
Fixpoint skip_digits (s : string) : string :=
  match s with
  | EmptyString => EmptyString
  | String c s' => if PyStr.is_digit c then skip_digits s' else s
  end.

(** [$]: at the end, or before a newline that ends the string. *)
Definition at_dollar (s : string) : bool :=
  match s with
  | EmptyString => true
  | String c EmptyString => Ascii.eqb c PyStr.newline
  | _ => false
  end.

Definition d2 : list atom := [Digit; Digit].
Definition d4 : list atom := [Digit; Digit; Digit; Digit].

(** [\d{4}-\d{2}-\d{2}] *)
Definition date_atoms : list atom :=
  d4 ++ [Lit "-"] ++ d2 ++ [Lit "-"] ++ d2.

(** [\d{4}-\d{2}-\d{2} \d{2}:\d{2}:\d{2}] *)
Definition datetime_atoms : list atom :=
  date_atoms ++ [Lit " "] ++ d2 ++ [Lit ":"] ++ d2 ++ [Lit ":"] ++ d2.

(** [re.search('^\d{4}-\d{2}-\d{2}$', s)] is not [None]. *)
Definition search_date (s : string) : bool :=
  match match_atoms date_atoms s with
  | Some rest => at_dollar rest
  | None => false
  end.

(** [re.search('^\d{4}-\d{2}-\d{2} \d{2}:\d{2}:\d{2}$', s)] is not
    [None]. *)
Definition search_datetime (s : string) : bool :=
  match match_atoms datetime_atoms s with
  | Some rest => at_dollar rest
  | None => false
  end.

(** [re.search('^\d{4}-\d{2}-\d{2} \d{2}:\d{2}:\d{2}\.\d+$', s)] is not
    [None].  After one digit, [\d+] takes every digit that follows:
    giving one back would leave a digit in front of [$], which cannot
    match. *)
Definition search_datetime_frac (s : string) : bool :=
  match match_atoms (datetime_atoms ++ [Lit "."; Digit]) s with
  | Some rest => at_dollar (skip_digits rest)
  | None => false
  end.

End Re.

(** ** Values *)

(** The payloads of [datetime.date], [datetime.time], [datetime.datetime]
    and [datetime.timedelta], with the fields Python stores. *)
Record date : Type := mk_date
  { d_year : Z; d_month : Z; d_day : Z }.

Record time : Type := mk_time
  { t_hour : Z; t_minute : Z; t_second : Z; t_microsecond : Z }.

Record datetime : Type := mk_datetime
  { dt_date : date; dt_time : time }.

Record timedelta : Type := mk_timedelta
  { td_days : Z; td_seconds : Z; td_microseconds : Z }.

(** What [ValueWrapper.value] can hold.  [datetime] is listed apart from
    [date]: [isinstance(v, datetime)] holds for the former only. *)
Inductive Value : Type :=
  | VNone
  | VBool (b : bool)
  | VInt (n : Z)
  | VFloat (x : PrimFloat.float)
  | VStr (s : string)
  | VDate (d : date)
  | VDatetime (d : datetime)
  | VTime (t : time)
  | VTimedelta (d : timedelta).

(** [isinstance(v, str)] *)
Definition is_str (v : Value) : bool :=
  match v with
  | VStr _ => true
  | _ => false
  end.

(** [ValueWrapper]: the wrapped value and the alias inherited from
    [Term]. *)
Record ValueWrapper : Type := mk_wrapper
  { value : Value; alias : option string }.

(** [self.value = v] *)
Definition set_value (self : ValueWrapper) (v : Value) : ValueWrapper :=
  {| value := v; alias := alias self |}.

(** The keyword arguments the rendering methods look at.
    [kw_secondary_quote_char] is [None] when the caller does not pass the
    keyword. *)
Record Kwargs : Type := mk_kwargs
  { kw_quote_char : option string;
    kw_secondary_quote_char : option string;
    kw_with_alias : bool }.

(** ** What the module imports

    The functions below are not defined in [terms.py]; they are taken as
    they are called.

    - [format_timedelta], [format_time] (frappe.utils.data) and
      [format_datetime] (frappe.db): the temporal formatters;
    - [builtin_str]: Python's [str()] on a value that is neither a string
      nor [None];
    - [get_value_sql v quote_char secondary_quote_char]: pypika's
      [ValueWrapper.get_value_sql] on a wrapper holding [v]; the third
      argument is [None] when the keyword is not passed.  The method gets
      [param_wrapper] among its keywords on one path, and does nothing with
      it on the values of [Value];
    - [format_alias_sql sql alias quote_char]: pypika.utils;
    - [schema_get_sql]: pypika's [Schema.get_sql];
    - [query_kwargs], [query_layout]: the keyword defaults that pypika's
      [QueryBuilder.get_sql] sets before it renders its terms, and the text
      it builds from what they rendered. *)
Class Imports : Type := mk_imports
  { format_timedelta : timedelta -> string;
    format_time : time -> string;
    format_datetime : datetime -> string;
    builtin_str : Value -> string;
    get_value_sql : Value -> option string -> option string -> string;
    format_alias_sql : string -> option string -> option string -> string;
    schema_get_sql : string -> option string -> string;
    query_kwargs : Kwargs -> Kwargs;
    query_layout : list string -> string }.

(** ** NamedParameterWrapper *)

(** A Python [dict] from [str] to [str]: keys in insertion order. *)
Definition dict : Type := list (string * string).

(** [d[k] = v]: an existing key keeps its place and takes the new value, a
    new key goes to the end. *)
Fixpoint dict_set (d : dict) (k v : string) : dict :=
  match d with
  | [] => [(k, v)]
  | (k', v') :: d' =>
      if String.eqb k' k then (k', v) :: d' else (k', v') :: dict_set d' k v
  end.

Definition dict_keys (d : dict) : list string := map fst d.

Module NamedParameterWrapper.

Record t : Type := mk { parameters : dict }.

(** [__init__] *)
Definition init : t := {| parameters := [] |}.

(** [get_sql(param_value)]: the placeholder returned and the wrapper
    after the assignment. *)
Definition get_sql (self : t) (param_value : string) : string * t :=
  let param_key :=
    "%(param" ++ PyStr.of_nat (List.length (parameters self) + 1) ++ ")s" in
  (param_key,
   {| parameters :=
        dict_set (parameters self) (PyStr.slice 2 2 param_key) param_value |}).

(** [get_parameters()] *)
Definition get_parameters (self : t) : dict := parameters self.

End NamedParameterWrapper.

(** ** conversion_column_value *)

Definition to_timestamp_ff6 (v : string) : string :=
  "to_timestamp('" ++ v ++ "', 'yyyy-mm-dd hh24:mi:ss.ff6')".

Definition to_timestamp_ss (v : string) : string :=
  "to_timestamp('" ++ v ++ "', 'yyyy-mm-dd hh24:mi:ss')".

Definition to_date (v : string) : string :=
  "to_date('" ++ v ++ "', 'yyyy-mm-dd')".

(** [value[0] == "'" and value[-1] == "'"], for a non-empty [value]. *)
Definition quote_delimited (s : string) : bool :=
  match PyStr.first s, PyStr.last s with
  | Some a, Some b => PyStr.is_quote a && PyStr.is_quote b
  | _, _ => false
  end.

(** ["'{}'".format(value.replace("'", "''"))] *)
Definition quoted (s : string) : string :=
  "'" ++ PyStr.replace "'" "''" s ++ "'".

Section Conversion.

Context {imports : Imports}.

Definition conversion_column_value (value : Value) (convert_to_date : bool)
  : Outcome string unit :=
  match value with
  | VStr s =>
      if String.eqb s "" then Ok "''"
      else
        let value := if quote_delimited s then PyStr.slice 1 1 s else s in
        if convert_to_date && Re.search_datetime_frac value then
          Ok (to_timestamp_ff6 value)
        else if convert_to_date && Re.search_datetime value then
          Ok (to_timestamp_ss value)
        else if convert_to_date && Re.search_date value then
          Ok (to_date value)
        else
          match PyStr.first value, PyStr.last value with
          | Some a, Some b =>
              if negb (PyStr.is_quote a) || negb (PyStr.is_quote b)
              then Ok (quoted value)
              else Ok value
          | _, _ => Raise IndexError tt
          end
  | VNone => Ok "NULL"
  | v => Ok (builtin_str v)
  end.

End Conversion.

(** ** ParameterizedValueWrapper *)

(** The [param_wrapper] keyword: [None], or the store that the call may
    write to. *)
Definition Store : Type := option NamedParameterWrapper.t.

(** What a rendering method hands back: the SQL text, the object it was
    called on as the call leaves it, and the parameter store as the call
    leaves it.  After an exception the caller still holds the store; what
    became of the objects rendered so far is not followed beyond it. *)
Definition Rendered (A : Type) : Type :=
  Outcome (string * A * Store) Store.

(** [isinstance(v, str) and (v.startswith('to_timestamp') or
    v.startswith('to_date'))], with the string when it holds. *)
Definition constructor_text (v : Value) : option string :=
  match v with
  | VStr s =>
      if PyStr.startswith s "to_timestamp" || PyStr.startswith s "to_date"
      then Some s else None
  | _ => None
  end.

Module ParameterizedValueWrapper.
Section Methods.

Context {imports : Imports}.

(** [frappe.is_oracledb] *)
Variable is_oracledb : bool.

(** [get_sql(quote_char, secondary_quote_char, param_wrapper, **kwargs)];
    [secondary_quote_char] defaults to a single quote. *)
Definition get_sql (self : ValueWrapper) (kw : Kwargs)
    (param_wrapper : Store) : Rendered ValueWrapper :=
  let quote_char := kw_quote_char kw in
  let secondary_quote_char :=
    match kw_secondary_quote_char kw with
    | Some c => c
    | None => "'"
    end in
  (* the last two statements: [get_value_sql], then [format_alias_sql] *)
  let standard (self : ValueWrapper) : Rendered ValueWrapper :=
    let sql :=
      get_value_sql (value self) quote_char (Some secondary_quote_char) in
    Ok (format_alias_sql sql (alias self) quote_char, self, param_wrapper) in
  match param_wrapper, value self with
  | Some pw, VStr s =>
      if PyStr.startswith s "to_timestamp" then
        Ok (format_alias_sql s (alias self) quote_char, self, param_wrapper)
      else
        (* "add quotes if it's a string value" *)
        let value_sql := get_value_sql (VStr s) quote_char None in
        let '(sql, pw') := NamedParameterWrapper.get_sql pw value_sql in
        Ok (format_alias_sql sql (alias self) quote_char, self, Some pw')
  | _, v =>
      match constructor_text v with
      | Some s =>
          Ok (format_alias_sql s (alias self) quote_char, self, param_wrapper)
      | None =>
          match v with
          | VTimedelta d =>
              let self := set_value self (VStr (format_timedelta d)) in
              if is_oracledb
              then Ok (to_timestamp_ff6 (format_timedelta d), self, param_wrapper)
              else standard self
          | VTime t =>
              let self := set_value self (VStr (format_time t)) in
              if is_oracledb
              then Ok (to_timestamp_ff6 (format_time t), self, param_wrapper)
              else standard self
          | VDatetime d =>
              let self := set_value self (VStr (format_datetime d)) in
              if is_oracledb
              then Ok (to_timestamp_ff6 (format_datetime d), self, param_wrapper)
              else standard self
          | _ =>
              if is_oracledb then
                match conversion_column_value v true with
                | Ok r => Ok (r, set_value self (VStr r), param_wrapper)
                | Raise e _ => Raise e param_wrapper
                end
              else standard self
          end
      end
  end.

End Methods.
End ParameterizedValueWrapper.

(** ** Terms: values, function calls and subqueries *)

(** [ParameterizedFunction] holds a name, an optional schema, its
    arguments (each one a term: pypika wraps constants when the function is
    built) and an alias.

    The query a [SubQuery] holds is an object of pypika's [QueryBuilder],
    which is not part of this module: it is represented by the ordered
    sequence of the terms it renders, all of them with the keyword
    arguments and the store that [SubQuery.get_sql] passes on.

    A term is a tree: every place of a term holds a wrapper of its own.
    One wrapper object put at two places of a term is not represented; its
    second rendering would start from the value that the first one left in
    [self.value]. *)
#[warnings="-register-all"]
Inductive Term : Type :=
  | TValue (w : ValueWrapper)
  | TFunction (name : string) (schema : option string) (args : list Term)
      (alias : option string)
  | TSubQuery (subq : list Term) (alias : option string).

(** [sep.join(l)] *)
Fixpoint join (sep : string) (l : list string) : string :=
  match l with
  | [] => ""
  | [x] => x
  | x :: l' => x ++ sep ++ join sep l'
  end.

(** Render the elements of a sequence from left to right, each one with
    the store the previous one left; the first exception ends the
    traversal. *)
Definition render_seq (A : Type) (render : A -> Store -> Rendered A)
  : list A -> Store -> Outcome (list string * list A * Store) Store :=
  fix go (l : list A) (pw : Store) :=
    match l with
    | [] => Ok ([], [], pw)
    | x :: l' =>
        match render x pw with
        | Raise e pw1 => Raise e pw1
        | Ok (sql, x', pw1) =>
            match go l' pw1 with
            | Raise e pw2 => Raise e pw2
            | Ok (sqls, l'', pw2) => Ok (sql :: sqls, x' :: l'', pw2)
            end
        end
    end.

Section Traversal.

Context {imports : Imports}.
Variable is_oracledb : bool.

(** [term.get_sql] with its keyword arguments, by the class of [term]:
    [ParameterizedValueWrapper.get_sql], [ParameterizedFunction.get_sql]
    (with pypika's [Function.get_function_sql], which renders the
    arguments in order with [with_alias=False] and joins them with
    commas) and [SubQuery.get_sql]. *)
Fixpoint get_sql (term : Term) (kw : Kwargs) (param_wrapper : Store)
    {struct term} : Rendered Term :=
  match term with
  | TValue w =>
      match ParameterizedValueWrapper.get_sql is_oracledb w kw param_wrapper with
      | Raise e pw => Raise e pw
      | Ok (sql, w', pw) => Ok (sql, TValue w', pw)
      end
  | TFunction name schema args alias =>
      let with_alias := kw_with_alias kw in
      let quote_char := kw_quote_char kw in
      let arg_kw :=
        {| kw_quote_char := quote_char;
           kw_secondary_quote_char := None;
           kw_with_alias := false |} in
      match render_seq (fun p => get_sql p arg_kw) args param_wrapper with
      | Raise e pw => Raise e pw
      | Ok (sqls, args', pw) =>
          let function_sql := name ++ "(" ++ join "," sqls ++ ")" in
          let function_sql :=
            match schema with
            | Some sc => schema_get_sql sc quote_char ++ "." ++ function_sql
            | None => function_sql
            end in
          Ok (if with_alias
              then format_alias_sql function_sql alias quote_char
              else function_sql,
              TFunction name schema args' alias, pw)
      end
  | TSubQuery subq alias =>
      match render_seq (fun p => get_sql p (query_kwargs kw)) subq param_wrapper with
      | Raise e pw => Raise e pw
      | Ok (sqls, subq', pw) =>
          Ok (query_layout sqls, TSubQuery subq' alias, pw)
      end
  end.

End Traversal.

(** ** A reference instance of the imports

    Used to run the module on concrete inputs. *)

(** Python's text forms of numbers and of the [datetime] classes. *)
Module PyText.

(** [str(n)] for an [int]. *)
Definition of_Z (n : Z) : string := NilZero.string_of_int (Z.to_int n).

(** [n] in decimal, padded with zeros on the left to [width] digits. *)
Definition padded (width : nat) (n : Z) : string :=
  let s := of_Z n in
  String.concat "" (repeat "0" (width - String.length s)) ++ s.

Definition fraction (us : Z) : string :=
  if Z.eqb us 0 then "" else "." ++ padded 6 us.

(** [date.isoformat()], also [str(date)]. *)
Definition date_isoformat (d : date) : string :=
  padded 4 (d_year d) ++ "-" ++ padded 2 (d_month d) ++ "-" ++ padded 2 (d_day d).

(** [time.isoformat()], also [str(time)]. *)
Definition time_isoformat (t : time) : string :=
  padded 2 (t_hour t) ++ ":" ++ padded 2 (t_minute t) ++ ":"
    ++ padded 2 (t_second t) ++ fraction (t_microsecond t).

(** [datetime.isoformat(sep)]; [str(datetime)] uses a space and
    [isoformat()] a [T]. *)
Definition datetime_isoformat (sep : string) (d : datetime) : string :=
  date_isoformat (dt_date d) ++ sep ++ time_isoformat (dt_time d).

(** [str(timedelta)] *)
Definition timedelta_str (d : timedelta) : string :=
  (if Z.eqb (td_days d) 0 then ""
   else of_Z (td_days d)
          ++ (if Z.eqb (Z.abs (td_days d)) 1 then " day, " else " days, "))
    ++ of_Z (td_seconds d / 3600) ++ ":"
    ++ padded 2 (td_seconds d mod 3600 / 60) ++ ":"
    ++ padded 2 (td_seconds d mod 60) ++ fraction (td_microseconds d).

(** Python's [str()] on the values that are neither strings nor [None].
    The shortest-digits algorithm of [str(float)] is not reproduced: a
    float is shown as [float], and no statement below is evaluated on
    one. *)
Definition builtin_str (v : Value) : string :=
  match v with
  | VBool b => if b then "True" else "False"
  | VInt n => of_Z n
  | VFloat _ => "float"
  | VDate d => date_isoformat d
  | VDatetime d => datetime_isoformat " " d
  | VTime t => time_isoformat t
  | VTimedelta d => timedelta_str d
  | VNone => "None"
  | VStr s => s
  end.

End PyText.

Module PyPika.

(** [pypika.utils.format_quotes]:
    ["{quote}{value}{quote}".format(value=value, quote=quote_char or "")] *)
Definition format_quotes (value : string) (quote_char : option string) : string :=
  let quote := match quote_char with Some q => q | None => "" end in
  quote ++ value ++ quote.

(** [pypika.utils.format_alias_sql], with [alias_quote_char] absent and
    [as_keyword] false as [terms.py] leaves them: the text itself when
    [alias is None], else the text, a space and the quoted alias. *)
Definition format_alias_sql (sql : string) (alias quote_char : option string)
  : string :=
  match alias with
  | None => sql
  | Some a => sql ++ " " ++ format_quotes a quote_char
  end.

(** [pypika.terms.ValueWrapper.get_value_sql] on the values of [Value]:
    [quote_char = kwargs.get("secondary_quote_char") or ""]; a [date] is
    rendered as the string of its [isoformat()]; a string as
    [format_quotes(value.replace(quote_char, quote_char * 2), quote_char)];
    a [bool] as [true] or [false]; [None] as [null]; anything else as
    [str(value)].  The [quote_char] keyword itself is not used. *)
Definition get_value_sql (v : Value)
    (_quote_char secondary_quote_char : option string) : string :=
  let quote_char :=
    match secondary_quote_char with Some q => q | None => "" end in
  let text (s : string) :=
    format_quotes (PyStr.replace quote_char (quote_char ++ quote_char) s)
      (Some quote_char) in
  match v with
  | VDate d => text (PyText.date_isoformat d)
  | VDatetime d => text (PyText.datetime_isoformat "T" d)
  | VStr s => text s
  | VBool b => if b then "true" else "false"
  | VNone => "null"
  | _ => PyText.builtin_str v
  end.

(** [Schema.get_sql] for a schema without parent: its quoted name. *)
Definition schema_get_sql (name : string) (quote_char : option string) : string :=
  format_quotes name quote_char.

(** [QueryBuilder._set_kwargs_defaults]: a single quote as secondary
    quote character unless one was passed. *)
Definition query_kwargs (kw : Kwargs) : Kwargs :=
  {| kw_quote_char := kw_quote_char kw;
     kw_secondary_quote_char :=
       match kw_secondary_quote_char kw with
       | Some c => Some c
       | None => Some "'"
       end;
     kw_with_alias := kw_with_alias kw |}.

(** A stand-in for the text that [QueryBuilder.get_sql] builds around the
    terms it rendered: they are listed after [SELECT]. *)
Definition query_layout (sqls : list string) : string :=
  "SELECT " ++ join "," sqls.

End PyPika.

Module Reference.

(** Modelled from the spec: [frappe.utils.data.format_timedelta] is not
    in this module; section 4.2 gives hours, minutes and seconds with the
    microseconds only when they are not zero. *)
Definition timedelta_text (d : timedelta) : string :=
  let total := (td_days d * 86400 + td_seconds d)%Z in
  PyText.of_Z (total / 3600) ++ ":" ++ PyText.padded 2 (total mod 3600 / 60)
    ++ ":" ++ PyText.padded 2 (total mod 60)
    ++ PyText.fraction (td_microseconds d).

(** Modelled from the spec: [frappe.utils.data.format_time] is not in
    this module; section 4.2 gives the same form for a time of day. *)
Definition time_text (t : time) : string :=
  PyText.of_Z (t_hour t) ++ ":" ++ PyText.padded 2 (t_minute t) ++ ":"
    ++ PyText.padded 2 (t_second t) ++ PyText.fraction (t_microsecond t).

(** Modelled from the spec: [frappe.db.format_datetime] belongs to the
    database connection; section 4.2 leaves the form to it.  Date, space,
    time and six digits of microseconds are used here. *)
Definition datetime_text (d : datetime) : string :=
  PyText.date_isoformat (dt_date d) ++ " "
    ++ PyText.padded 2 (t_hour (dt_time d)) ++ ":"
    ++ PyText.padded 2 (t_minute (dt_time d)) ++ ":"
    ++ PyText.padded 2 (t_second (dt_time d)) ++ "."
    ++ PyText.padded 6 (t_microsecond (dt_time d)).

Definition imports : Imports :=
  mk_imports timedelta_text time_text datetime_text PyText.builtin_str
    PyPika.get_value_sql PyPika.format_alias_sql PyPika.schema_get_sql
    PyPika.query_kwargs PyPika.query_layout.

End Reference.

(** ** Notions used in the statements *)

(** The key of the [n]-th parameter and the placeholder that stands for
    it. *)
Definition param_name (n : nat) : string := "param" ++ PyStr.of_nat n.

Definition placeholder (n : nat) : string := "%(" ++ param_name n ++ ")s".

(** The keys of a store are [param1], ..., [paramk], in this order. *)
Definition numbered (d : dict) : Prop :=
  dict_keys d = map param_name (seq 1 (List.length d)).

(** The store after [NamedParameterWrapper.get_sql], and after a sequence
    of such calls. *)
Definition bind (pw : NamedParameterWrapper.t) (text : string)
  : NamedParameterWrapper.t :=
  snd (NamedParameterWrapper.get_sql pw text).

Definition bind_all (pw : NamedParameterWrapper.t) (texts : list string)
  : NamedParameterWrapper.t :=
  fold_left bind texts pw.

(** [isinstance(v, (timedelta, time, datetime))] *)
Definition is_temporal (v : Value) : bool :=
  match v with
  | VTimedelta _ | VTime _ | VDatetime _ => true
  | _ => false
  end.


Section BoundTexts.

Context {imports : Imports}.

(** The texts a value wrapper hands to the store when one is attached:
    one for a string that does not start with [to_timestamp], none
    otherwise. *)
Definition value_texts (w : ValueWrapper) (kw : Kwargs) : list string :=
  match value w with
  | VStr s =>
      if PyStr.startswith s "to_timestamp" then []
      else [get_value_sql (VStr s) (kw_quote_char kw) None]
  | _ => []
  end.

(** The texts handed to the store while a term is rendered with a store
    attached, in the order of a depth-first traversal from left to
    right. *)
Fixpoint bound_texts (term : Term) (kw : Kwargs) : list string :=
  match term with
  | TValue w => value_texts w kw
  | TFunction _ _ args _ =>
      flat_map
        (fun p =>
           bound_texts p
             {| kw_quote_char := kw_quote_char kw;
                kw_secondary_quote_char := None;
                kw_with_alias := false |})
        args
  | TSubQuery subq _ =>
      flat_map (fun p => bound_texts p (query_kwargs kw)) subq
  end.

End BoundTexts.

(** The first character is a decimal digit. *)
Definition starts_with_digit (s : string) : bool :=
  match s with
  | String c _ => PyStr.is_digit c
  | EmptyString => false
  end.

(** [d.get(k)] *)
Fixpoint dict_get (d : dict) (k : string) : option string :=
  match d with
  | [] => None
  | (k', v) :: d' => if String.eqb k' k then Some v else dict_get d' k
  end.

(** Successive calls of [NamedParameterWrapper.get_sql] on one store, one
    for each text: the placeholders returned, in order, and the store after
    the last call. *)
Fixpoint get_sql_all (pw : NamedParameterWrapper.t) (texts : list string)
  : list string * NamedParameterWrapper.t :=
  match texts with
  | [] => ([], pw)
  | text :: texts' =>
      let '(key, pw1) := NamedParameterWrapper.get_sql pw text in
      let '(keys, pw2) := get_sql_all pw1 texts' in
      (key :: keys, pw2)
  end.

(** Two calls have the same effect: both return, or both raise the same
    exception, and they leave the same store. *)
Definition same_effect (A B : Type) (r1 : Outcome (A * Store) Store)
    (r2 : Outcome (B * Store) Store) : Prop :=
  match r1, r2 with
  | Ok (_, pw1), Ok (_, pw2) => pw1 = pw2
  | Raise e1 pw1, Raise e2 pw2 => e1 = e2 /\ pw1 = pw2
  | _, _ => False
  end.

(** The term with every alias taken off. *)
Fixpoint without_alias (term : Term) : Term :=
  match term with
  | TValue w => TValue (mk_wrapper (value w) None)
  | TFunction name schema args _ =>
      TFunction name schema (map without_alias args) None
  | TSubQuery subq _ => TSubQuery (map without_alias subq) None
  end.

(** The term holds no subquery: it is made of values and function calls. *)
Fixpoint subquery_free (term : Term) : bool :=
  match term with
  | TValue _ => true
  | TFunction _ _ args _ => forallb subquery_free args
  | TSubQuery _ _ => false
  end.

(** A text that the conversion takes as plain: not empty, not between
    quotes, matching none of the three patterns, and not starting with a
    constructor name. *)
Definition plain_text (r : string) : bool :=
  negb (String.eqb r "")
  && negb (quote_delimited r)
  && negb (Re.search_datetime_frac r)
  && negb (Re.search_datetime r)
  && negb (Re.search_date r)
  && negb (PyStr.startswith r "to_timestamp")
  && negb (PyStr.startswith r "to_date").

(** The string made of one quote, or of two. *)
Definition lone_quotes (v : Value) : bool :=
  match v with
  | VStr s => String.eqb s "'" || String.eqb s "''"
  | _ => false
  end.

(** Some value wrapper of the term holds [lone_quotes]. *)
Fixpoint holds_lone_quotes (term : Term) : bool :=
  match term with
  | TValue w => lone_quotes (value w)
  | TFunction _ _ args _ => existsb holds_lone_quotes args
  | TSubQuery subq _ => existsb holds_lone_quotes subq
  end.

(** No value wrapper of the term holds a duration, a time or a
    datetime. *)
Fixpoint temporal_free (term : Term) : bool :=
  match term with
  | TValue w => negb (is_temporal (value w))
  | TFunction _ _ args _ => forallb temporal_free args
  | TSubQuery subq _ => forallb temporal_free subq
  end.

Section TemporalText.

Context {imports : Imports}.

(** The text that [get_sql] puts in place of a duration, a time or a
    datetime. *)
Definition temporal_text (v : Value) : option string :=
  match v with
  | VTimedelta d => Some (format_timedelta d)
  | VTime t => Some (format_time t)
  | VDatetime d => Some (format_datetime d)
  | _ => None
  end.

End TemporalText.

(** The string made of a newline. *)
Definition newline_text : string := String PyStr.newline EmptyString.

(** ** Sample inputs *)

(** A function call with three arguments, the second one a subquery. *)
Definition sample_call : Term :=
  TFunction "concat" None
    [TValue (mk_wrapper (VStr "a") None);
     TSubQuery [TValue (mk_wrapper (VStr "b") None);
                TValue (mk_wrapper (VInt 3) None)] None;
     TValue (mk_wrapper (VStr "c") None)]
    (Some "f").

(** A backquote as [quote_char], no secondary quote character passed,
    [with_alias] set. *)
Definition sample_kwargs : Kwargs := mk_kwargs (Some "`") None true.

(** A duration of one hour and one minute. *)
Definition one_hour_one_minute : timedelta := mk_timedelta 0 3660 0.

(** ** Tactics *)

(** Case analysis on the tests met in a hypothesis about a call. *)
Ltac split_tests H :=
  repeat match type of H with
         | context [if ?c then _ else _] => destruct c eqn:?
         | context [match conversion_column_value ?v ?b with _ => _ end] =>
             destruct (conversion_column_value v b) eqn:?
         end.

(** ** Induction on terms *)

Section TermInduction.

Variable P : Term -> Prop.
Hypothesis P_value : forall w, P (TValue w).
Hypothesis P_function :
  forall name schema args alias,
    Forall P args -> P (TFunction name schema args alias).
Hypothesis P_subquery :
  forall subq alias, Forall P subq -> P (TSubQuery subq alias).

Fixpoint Term_nested_ind (t : Term) : P t :=
  match t with
  | TValue w => P_value w
  | TFunction name schema args alias =>
      P_function name schema alias
        ((fix all (l : list Term) : Forall P l :=
            match l with
            | [] => Forall_nil P
            | x :: l' => Forall_cons x (Term_nested_ind x) (all l')
            end) args)
  | TSubQuery subq alias =>
      P_subquery alias
        ((fix all (l : list Term) : Forall P l :=
            match l with
            | [] => Forall_nil P
            | x :: l' => Forall_cons x (Term_nested_ind x) (all l')
            end) subq)
  end.

End TermInduction.

(** ** The parameter store *)

Lemma substring_prefix (x y : string) :
  substring 0 (String.length x) (x ++ y) = x.
Proof.
  induction x as [|c x IH]; simpl.
  - destruct y; reflexivity.
  - now rewrite IH.
Qed.

Lemma length_append (x y : string) :
  String.length (x ++ y) = String.length x + String.length y.
Proof. induction x as [|c x IH]; simpl; [reflexivity | now rewrite IH]. Qed.

(** The key stored is the placeholder without its first two and last two
    characters: [param<n>]. *)
Lemma slice_2_2 (x : string) : PyStr.slice 2 2 ("%(" ++ x ++ ")s") = x.
Proof.
  unfold PyStr.slice. simpl String.length. rewrite length_append.
  simpl String.length.
  replace (S (S (String.length x + 2)) - 2 - 2) with (String.length x) by lia.
  simpl. apply substring_prefix.
Qed.

Lemma placeholder_key (n : nat) :
  PyStr.slice 2 2 ("%(param" ++ PyStr.of_nat n ++ ")s") = param_name n.
Proof. exact (slice_2_2 (param_name n)). Qed.

Lemma of_nat_inj (n m : nat) : PyStr.of_nat n = PyStr.of_nat m -> n = m.
Proof.
  unfold PyStr.of_nat. intros H.
  apply Unsigned.to_uint_inj.
  apply (f_equal NilEmpty.uint_of_string) in H.
  rewrite !NilEmpty.usu in H. now injection H.
Qed.

Lemma param_name_inj (n m : nat) : param_name n = param_name m -> n = m.
Proof.
  unfold param_name. simpl. intros H. injection H as H. now apply of_nat_inj.
Qed.

Lemma get_sql_bind (pw : NamedParameterWrapper.t) (text : string) :
  NamedParameterWrapper.get_sql pw text =
    (placeholder (List.length (NamedParameterWrapper.parameters pw) + 1),
     bind pw text).
Proof. reflexivity. Qed.

Lemma bind_parameters (pw : NamedParameterWrapper.t) (text : string) :
  NamedParameterWrapper.parameters (bind pw text) =
    dict_set (NamedParameterWrapper.parameters pw)
      (param_name (List.length (NamedParameterWrapper.parameters pw) + 1)) text.
Proof.
  unfold bind, NamedParameterWrapper.get_sql.
  cbn [snd NamedParameterWrapper.parameters].
  now rewrite placeholder_key.
Qed.

Lemma dict_set_fresh (d : dict) (k v : string) :
  ~ In k (dict_keys d) -> dict_set d k v = (d ++ [(k, v)])%list.
Proof.
  induction d as [|[k' v'] d IH]; simpl; intros H; [reflexivity|].
  destruct (String.eqb_spec k' k) as [->|_].
  - exfalso. apply H. now left.
  - rewrite IH; [reflexivity|]. intros Hin. apply H. now right.
Qed.

Lemma next_name_fresh (n : nat) :
  ~ In (param_name (n + 1)) (map param_name (seq 1 n)).
Proof.
  intros H. apply in_map_iff in H. destruct H as [m [Hm Hin]].
  apply param_name_inj in Hm. apply in_seq in Hin. lia.
Qed.

(** On a numbered store, binding appends one entry under the next key and
    leaves the store numbered. *)
Lemma bind_numbered (pw : NamedParameterWrapper.t) (text : string) :
  numbered (NamedParameterWrapper.parameters pw) ->
  NamedParameterWrapper.parameters (bind pw text) =
    (NamedParameterWrapper.parameters pw
       ++ [(param_name (List.length (NamedParameterWrapper.parameters pw) + 1),
            text)])%list
  /\ numbered (NamedParameterWrapper.parameters (bind pw text)).
Proof.
  intros Hn. rewrite bind_parameters.
  set (d := NamedParameterWrapper.parameters pw) in *.
  assert (E : dict_set d (param_name (List.length d + 1)) text
              = (d ++ [(param_name (List.length d + 1), text)])%list).
  { apply dict_set_fresh. rewrite Hn. apply next_name_fresh. }
  rewrite E. split; [reflexivity|].
  unfold numbered, dict_keys in *.
  rewrite map_app, length_app, Hn. simpl.
  rewrite seq_app, map_app. simpl.
  now replace (S (List.length d)) with (List.length d + 1) by lia.
Qed.

(** A sequence of bindings on a numbered store appends the texts, in
    order, under the keys that follow those of the store. *)
Lemma bind_all_numbered (texts : list string) :
  forall pw : NamedParameterWrapper.t,
    numbered (NamedParameterWrapper.parameters pw) ->
    NamedParameterWrapper.parameters (bind_all pw texts) =
      (NamedParameterWrapper.parameters pw
         ++ combine
              (map param_name
                 (seq (List.length (NamedParameterWrapper.parameters pw) + 1)
                    (List.length texts)))
              texts)%list
    /\ numbered (NamedParameterWrapper.parameters (bind_all pw texts)).
Proof.
  induction texts as [|text texts IH]; intros pw Hn.
  - simpl. now rewrite app_nil_r.
  - change (bind_all pw (text :: texts)) with (bind_all (bind pw text) texts).
    destruct (bind_numbered pw text Hn) as [E Hn'].
    destruct (IH (bind pw text) Hn') as [E' Hn''].
    split; [|exact Hn''].
    rewrite E', E, <- app_assoc, length_app. simpl.
    now replace (List.length (NamedParameterWrapper.parameters pw) + 1 + 1)
      with (S (List.length (NamedParameterWrapper.parameters pw) + 1)) by lia.
Qed.

Lemma numbered_NoDup (d : dict) : numbered d -> NoDup (dict_keys d).
Proof.
  unfold numbered. intros ->.
  apply Finite.Injective_map_NoDup; [|apply seq_NoDup].
  intros n m. apply param_name_inj.
Qed.

(** ** Rendering with a store attached *)

Section WithStore.

Context {imports : Imports}.
Variable is_oracledb : bool.

(** With a store attached a value wrapper always returns, and the store
    it leaves is the one it found after the bindings of
    [value_texts]. *)
Lemma value_get_sql_with_store (w : ValueWrapper) (kw : Kwargs)
    (pw : NamedParameterWrapper.t) :
  exists sql w',
    ParameterizedValueWrapper.get_sql is_oracledb w kw (Some pw) =
      Ok (sql, w', Some (bind_all pw (value_texts w kw))).
Proof.
  destruct w as [v a].
  unfold ParameterizedValueWrapper.get_sql, value_texts.
  destruct v; cbn [value alias constructor_text conversion_column_value];
    try (destruct is_oracledb; eexists; eexists; reflexivity).
  destruct (PyStr.startswith s "to_timestamp");
    eexists; eexists; reflexivity.
Qed.

Lemma render_seq_with_store (render : Term -> Store -> Rendered Term)
    (texts : Term -> list string) (l : list Term) :
  Forall
    (fun p =>
       forall pw, exists sql p',
         render p (Some pw) = Ok (sql, p', Some (bind_all pw (texts p)))) l ->
  forall pw, exists sqls l',
    render_seq render l (Some pw) =
      Ok (sqls, l', Some (bind_all pw (flat_map texts l))).
Proof.
  induction 1 as [|p l Hp _ IH]; intros pw; simpl.
  - eexists; eexists; reflexivity.
  - destruct (Hp pw) as [sql [p' ->]].
    destruct (IH (bind_all pw (texts p))) as [sqls [l' ->]].
    unfold bind_all. rewrite fold_left_app.
    eexists; eexists; reflexivity.
Qed.

(** The same for a term: the traversal returns, and the store it leaves
    is the one it found after the bindings of [bound_texts], in their
    order. *)
Lemma get_sql_with_store (term : Term) :
  forall (kw : Kwargs) (pw : NamedParameterWrapper.t),
  exists sql term',
    get_sql is_oracledb term kw (Some pw) =
      Ok (sql, term', Some (bind_all pw (bound_texts term kw))).
Proof.
  induction term as [w | name schema args alias IH | subq alias IH]
    using Term_nested_ind; intros kw pw.
  - cbn [get_sql bound_texts].
    destruct (value_get_sql_with_store w kw pw) as [sql [w' ->]].
    eexists; eexists; reflexivity.
  - cbn [get_sql bound_texts].
    set (arg_kw := {| kw_quote_char := kw_quote_char kw;
                      kw_secondary_quote_char := None;
                      kw_with_alias := false |}).
    destruct (render_seq_with_store
                (fun p => get_sql is_oracledb p arg_kw)
                (fun p => bound_texts p arg_kw) (l := args)) with (pw := pw)
      as [sqls [args' ->]].
    + eapply Forall_impl; [|exact IH]. intros p Hp. apply Hp.
    + eexists; eexists; reflexivity.
  - cbn [get_sql bound_texts].
    destruct (render_seq_with_store
                (fun p => get_sql is_oracledb p (query_kwargs kw))
                (fun p => bound_texts p (query_kwargs kw)) (l := subq))
      with (pw := pw) as [sqls [subq' ->]].
    + eapply Forall_impl; [|exact IH]. intros p Hp. apply Hp.
    + eexists; eexists; reflexivity.
Qed.

End WithStore.

(** C1. Parameter numbering.  A term (a value, a function call with its
    arguments, a subquery with what it holds) rendered with a store attached
    whose keys are [param1] to [paramn] always returns; the store it leaves
    is the one it found followed by the texts bound during the traversal
    (depth first, left to right, one store for the whole term), the i-th of
    them under the key [param(n+i)]; so the keys are again [param1] to
    [param(n+k)] in insertion order, none of them twice.  A render pass
    starts from the empty store, where n is 0. *)
Theorem parameter_numbering {imports : Imports} (is_oracledb : bool)
    (term : Term) (kw : Kwargs) (pw : NamedParameterWrapper.t) :
  numbered (NamedParameterWrapper.parameters pw) ->
  exists sql term' pw',
    get_sql is_oracledb term kw (Some pw) = Ok (sql, term', Some pw')
    /\ NamedParameterWrapper.parameters pw' =
         (NamedParameterWrapper.parameters pw
            ++ combine
                 (map param_name
                    (seq (List.length (NamedParameterWrapper.parameters pw) + 1)
                       (List.length (bound_texts term kw))))
                 (bound_texts term kw))%list
    /\ numbered (NamedParameterWrapper.parameters pw')
    /\ NoDup (dict_keys (NamedParameterWrapper.parameters pw')).
Proof.
  intros Hn.
  destruct (get_sql_with_store is_oracledb term kw pw) as [sql [term' E]].
  destruct (bind_all_numbered (bound_texts term kw) pw Hn) as [Ep Hn'].
  exists sql, term', (bind_all pw (bound_texts term kw)).
  repeat split; auto using numbered_NoDup.
Qed.

(** [parameter_numbering] on [sample_call], from the empty store. *)
Lemma parameter_numbering_witness :
  numbered (NamedParameterWrapper.parameters NamedParameterWrapper.init)
  /\ exists sql term' pw',
       get_sql (imports := Reference.imports) false sample_call sample_kwargs
         (Some NamedParameterWrapper.init) = Ok (sql, term', Some pw')
       /\ NamedParameterWrapper.parameters pw' =
            (NamedParameterWrapper.parameters NamedParameterWrapper.init
               ++ combine
                    (map param_name
                       (seq (List.length (NamedParameterWrapper.parameters
                                            NamedParameterWrapper.init) + 1)
                          (List.length
                             (bound_texts (imports := Reference.imports)
                                sample_call sample_kwargs))))
                    (bound_texts (imports := Reference.imports)
                       sample_call sample_kwargs))%list
       /\ numbered (NamedParameterWrapper.parameters pw')
       /\ NoDup (dict_keys (NamedParameterWrapper.parameters pw')).
Proof.
  split; [reflexivity|].
  apply (parameter_numbering (imports := Reference.imports) false sample_call
           sample_kwargs NamedParameterWrapper.init).
  reflexivity.
Defined.

(** The rendering of [sample_call] from the empty store. *)
Example sample_call_rendered :
  get_sql (imports := Reference.imports) false sample_call sample_kwargs
    (Some NamedParameterWrapper.init) =
  Ok ("concat(%(param1)s,SELECT %(param2)s,3,%(param3)s) `f`",
      sample_call,
      Some {| NamedParameterWrapper.parameters :=
                [("param1", "a"); ("param2", "b"); ("param3", "c")] |}).
Proof. vm_compute. reflexivity. Qed.

(** ** Values that are not strings *)

(** C4. Temporal values under [frappe.is_oracledb] with a store attached.
    A duration, a time or a datetime is formatted by its formatter, the
    text returned is the [to_timestamp] call around the formatted text, and
    the store is the one that was passed: nothing is bound. *)
Theorem oracle_temporal_not_bound {imports : Imports} (a : option string)
    (kw : Kwargs) (pw : NamedParameterWrapper.t) :
  (forall d : timedelta,
     ParameterizedValueWrapper.get_sql true (mk_wrapper (VTimedelta d) a) kw
       (Some pw) =
     Ok ("to_timestamp('" ++ format_timedelta d
           ++ "', 'yyyy-mm-dd hh24:mi:ss.ff6')",
         mk_wrapper (VStr (format_timedelta d)) a, Some pw))
  /\ (forall t : time,
        ParameterizedValueWrapper.get_sql true (mk_wrapper (VTime t) a) kw
          (Some pw) =
        Ok ("to_timestamp('" ++ format_time t
              ++ "', 'yyyy-mm-dd hh24:mi:ss.ff6')",
            mk_wrapper (VStr (format_time t)) a, Some pw))
  /\ (forall d : datetime,
        ParameterizedValueWrapper.get_sql true (mk_wrapper (VDatetime d) a) kw
          (Some pw) =
        Ok ("to_timestamp('" ++ format_datetime d
              ++ "', 'yyyy-mm-dd hh24:mi:ss.ff6')",
            mk_wrapper (VStr (format_datetime d)) a, Some pw)).
Proof. repeat split. Qed.

(** C8. Only strings are bound.  A value that is not a string (null, a
    boolean, an integer, a float, a date, a datetime, a time, a duration)
    rendered with a store attached returns, under either setting of
    [frappe.is_oracledb], and leaves the store exactly as it was. *)
Theorem non_string_not_bound {imports : Imports} (is_oracledb : bool)
    (v : Value) (a : option string) (kw : Kwargs)
    (pw : NamedParameterWrapper.t) :
  is_str v = false ->
  exists sql w',
    ParameterizedValueWrapper.get_sql is_oracledb (mk_wrapper v a) kw (Some pw) =
      Ok (sql, w', Some pw).
Proof.
  intros Hv.
  destruct (value_get_sql_with_store is_oracledb (mk_wrapper v a) kw pw)
    as [sql [w' E]].
  exists sql, w'. rewrite E.
  destruct v; try discriminate Hv; reflexivity.
Qed.

(** [non_string_not_bound] on the integer 42. *)
Lemma non_string_not_bound_witness :
  is_str (VInt 42) = false
  /\ exists sql w',
       ParameterizedValueWrapper.get_sql (imports := Reference.imports) false
         (mk_wrapper (VInt 42) None) sample_kwargs
         (Some NamedParameterWrapper.init) =
       Ok (sql, w', Some NamedParameterWrapper.init).
Proof.
  split; [reflexivity|].
  apply (non_string_not_bound (imports := Reference.imports) false (VInt 42)
           None sample_kwargs NamedParameterWrapper.init).
  reflexivity.
Defined.

(** ** conversion_column_value on strings *)

Lemma digit_not_quote (c : ascii) :
  PyStr.is_digit c = true -> PyStr.is_quote c = false.
Proof.
  destruct c as [[] [] [] [] [] [] [] []]; vm_compute; congruence.
Qed.

Lemma search_date_digit (s : string) :
  Re.search_date s = true -> starts_with_digit s = true.
Proof.
  destruct s as [|c s]; [discriminate|].
  unfold Re.search_date. cbn. destruct (PyStr.is_digit c); [auto|discriminate].
Qed.

Lemma search_datetime_digit (s : string) :
  Re.search_datetime s = true -> starts_with_digit s = true.
Proof.
  destruct s as [|c s]; [discriminate|].
  unfold Re.search_datetime. cbn.
  destruct (PyStr.is_digit c); [auto|discriminate].
Qed.

Lemma search_datetime_frac_digit (s : string) :
  Re.search_datetime_frac s = true -> starts_with_digit s = true.
Proof.
  destruct s as [|c s]; [discriminate|].
  unfold Re.search_datetime_frac. cbn.
  destruct (PyStr.is_digit c); [auto|discriminate].
Qed.

(** A string that starts with a digit is not empty and not delimited by
    quotes: the patterns are tried on the string itself. *)
Lemma conversion_of_digit_string {imports : Imports} (s : string) (b : bool) :
  starts_with_digit s = true ->
  conversion_column_value (VStr s) b =
    if b && Re.search_datetime_frac s then Ok (to_timestamp_ff6 s)
    else if b && Re.search_datetime s then Ok (to_timestamp_ss s)
    else if b && Re.search_date s then Ok (to_date s)
    else
      match PyStr.first s, PyStr.last s with
      | Some x, Some y =>
          if negb (PyStr.is_quote x) || negb (PyStr.is_quote y)
          then Ok (quoted s) else Ok s
      | _, _ => Raise IndexError tt
      end.
Proof.
  destruct s as [|c s]; [discriminate|]. cbn [starts_with_digit]. intros Hc.
  unfold conversion_column_value.
  assert (Hq : quote_delimited (String c s) = false).
  { unfold quote_delimited. cbn [PyStr.first].
    rewrite (digit_not_quote c Hc). now destruct (PyStr.last (String c s)). }
  rewrite Hq. reflexivity.
Qed.

(** C5. Temporal classification.  The three strings of the specification
    are rewritten to their constructor calls; and for every string, the
    pattern with a fraction is tried first, then the datetime pattern, then
    the date pattern, the first one that matches giving the call around the
    string. *)
Theorem temporal_classification {imports : Imports} :
  conversion_column_value (VStr "2024-01-15") true =
    Ok "to_date('2024-01-15', 'yyyy-mm-dd')"
  /\ conversion_column_value (VStr "2024-01-15 10:30:00") true =
       Ok "to_timestamp('2024-01-15 10:30:00', 'yyyy-mm-dd hh24:mi:ss')"
  /\ conversion_column_value (VStr "2024-01-15 10:30:00.123456") true =
       Ok "to_timestamp('2024-01-15 10:30:00.123456', 'yyyy-mm-dd hh24:mi:ss.ff6')"
  /\ forall s : string,
       (Re.search_datetime_frac s = true ->
        conversion_column_value (VStr s) true =
          Ok ("to_timestamp('" ++ s ++ "', 'yyyy-mm-dd hh24:mi:ss.ff6')"))
       /\ (Re.search_datetime_frac s = false ->
           Re.search_datetime s = true ->
           conversion_column_value (VStr s) true =
             Ok ("to_timestamp('" ++ s ++ "', 'yyyy-mm-dd hh24:mi:ss')"))
       /\ (Re.search_datetime_frac s = false ->
           Re.search_datetime s = false ->
           Re.search_date s = true ->
           conversion_column_value (VStr s) true =
             Ok ("to_date('" ++ s ++ "', 'yyyy-mm-dd')")).
Proof.
  split; [reflexivity|]. split; [reflexivity|]. split; [reflexivity|].
  intros s. repeat split.
  - intros H. rewrite conversion_of_digit_string
      by now apply search_datetime_frac_digit.
    now rewrite H.
  - intros H1 H2. rewrite conversion_of_digit_string
      by now apply search_datetime_digit.
    now rewrite H1, H2.
  - intros H1 H2 H3. rewrite conversion_of_digit_string
      by now apply search_date_digit.
    now rewrite H1, H2, H3.
Qed.

(** The second case of [temporal_classification] on a datetime without
    fraction. *)
Lemma temporal_classification_witness :
  Re.search_datetime_frac "1999-12-31 23:59:59" = false
  /\ Re.search_datetime "1999-12-31 23:59:59" = true
  /\ conversion_column_value (imports := Reference.imports)
       (VStr "1999-12-31 23:59:59") true =
     Ok ("to_timestamp('" ++ "1999-12-31 23:59:59"
           ++ "', 'yyyy-mm-dd hh24:mi:ss')").
Proof.
  split; [reflexivity|]. split; [reflexivity|].
  apply (proj1 (proj2 (proj2 (proj2 (proj2
           (temporal_classification (imports := Reference.imports))))
           "1999-12-31 23:59:59")));
    reflexivity.
Defined.

(** C7. [conversion_column_value] is not total.  On the string made of one
    quote, and on the string made of two, the outer quotes are cut off, the
    empty string that is left is indexed, and the call ends with
    [IndexError], whatever [convert_to_date] is.  The serializer under
    [frappe.is_oracledb] without a store passes the exception on. *)
Theorem conversion_raises_on_lone_quotes {imports : Imports} :
  (forall b, conversion_column_value (VStr "'") b = Raise IndexError tt)
  /\ (forall b, conversion_column_value (VStr "''") b = Raise IndexError tt)
  /\ (forall a kw,
        ParameterizedValueWrapper.get_sql true (mk_wrapper (VStr "'") a) kw None
          = Raise IndexError None).
Proof.
  split; [intros []; reflexivity|].
  split; [intros []; reflexivity|].
  intros a kw. reflexivity.
Qed.

Lemma slice_1_1_long (a b c : ascii) (s : string) :
  exists x r, PyStr.slice 1 1 (String a (String b (String c s))) = String x r.
Proof.
  unfold PyStr.slice. cbn [String.length].
  replace (S (S (S (String.length s))) - 1 - 1) with (S (String.length s)) by lia.
  cbn. eexists; eexists; reflexivity.
Qed.

(** The two strings of C7 are the only inputs on which the conversion
    raises. *)
Lemma conversion_returns_elsewhere {imports : Imports} (v : Value) (b : bool) :
  v <> VStr "'" -> v <> VStr "''" ->
  exists r, conversion_column_value v b = Ok r.
Proof.
  intros H1 H2.
  destruct v; try (eexists; reflexivity).
  unfold conversion_column_value.
  destruct (String.eqb_spec s "") as [|Hne]; [eexists; reflexivity|].
  set (inner := if quote_delimited s then PyStr.slice 1 1 s else s).
  assert (Hinner : exists x r, inner = String x r).
  { subst inner. destruct s as [|x [|y [|z s]]].
    - congruence.
    - unfold quote_delimited. cbn.
      destruct (PyStr.is_quote x) eqn:Hx; cbn; [|eexists; eexists; reflexivity].
      exfalso. apply H1. unfold PyStr.is_quote in Hx.
      apply Ascii.eqb_eq in Hx. now subst x.
    - unfold quote_delimited. cbn.
      destruct (PyStr.is_quote x) eqn:Hx; cbn; [|eexists; eexists; reflexivity].
      destruct (PyStr.is_quote y) eqn:Hy; cbn; [|eexists; eexists; reflexivity].
      exfalso. apply H2. unfold PyStr.is_quote in Hx, Hy.
      apply Ascii.eqb_eq in Hx, Hy. now subst x y.
    - destruct (quote_delimited (String x (String y (String z s)))).
      + apply slice_1_1_long.
      + eexists; eexists; reflexivity. }
  destruct Hinner as [x [r ->]].
  destruct (b && Re.search_datetime_frac (String x r)); [eexists; reflexivity|].
  destruct (b && Re.search_datetime (String x r)); [eexists; reflexivity|].
  destruct (b && Re.search_date (String x r)); [eexists; reflexivity|].
  cbn [PyStr.first].
  destruct (PyStr.last (String x r)) eqn:Hl.
  - destruct (negb (PyStr.is_quote x) || negb (PyStr.is_quote a));
      eexists; reflexivity.
  - exfalso. revert x Hl. induction r as [|y r IH]; intros x Hl.
    + discriminate.
    + apply (IH y). exact Hl.
Qed.

(** C6. A text between quotes is not returned as it is.  The last test of
    [conversion_column_value] looks at the text after the outer quotes were
    cut off: a literal with a doubled quote inside has its quotes doubled
    again, and a text between two pairs of quotes comes back with one pair
    only. *)
Theorem quoted_text_not_kept {imports : Imports} :
  conversion_column_value (VStr "'O''Brien'") true = Ok "'O''''Brien'"
  /\ conversion_column_value (VStr "''x''") true = Ok "'x'"
  /\ conversion_column_value (VStr "'a'b'") false = Ok "'a''b'".
Proof. repeat split. Qed.

(** What holds of C6: the patterns and the last test see the text without
    its outer quotes. *)
Lemma conversion_cuts_outer_quotes {imports : Imports} (s : string) (b : bool) :
  s <> "" -> quote_delimited s = true ->
  conversion_column_value (VStr s) b =
    let inner := PyStr.slice 1 1 s in
    if b && Re.search_datetime_frac inner then Ok (to_timestamp_ff6 inner)
    else if b && Re.search_datetime inner then Ok (to_timestamp_ss inner)
    else if b && Re.search_date inner then Ok (to_date inner)
    else
      match PyStr.first inner, PyStr.last inner with
      | Some x, Some y =>
          if negb (PyStr.is_quote x) || negb (PyStr.is_quote y)
          then Ok (quoted inner) else Ok inner
      | _, _ => Raise IndexError tt
      end.
Proof.
  intros Hne Hq. unfold conversion_column_value.
  destruct (String.eqb_spec s ""); [contradiction|].
  now rewrite Hq.
Qed.

(** What holds of C6: a text that is not empty, not between quotes and
    matches no pattern is put between quotes, its quotes doubled. *)
Lemma conversion_quotes_plain_text {imports : Imports} (s : string) (b : bool) :
  s <> "" -> quote_delimited s = false ->
  b && Re.search_datetime_frac s = false ->
  b && Re.search_datetime s = false ->
  b && Re.search_date s = false ->
  conversion_column_value (VStr s) b =
    Ok ("'" ++ PyStr.replace "'" "''" s ++ "'").
Proof.
  intros Hne Hq H1 H2 H3. unfold conversion_column_value.
  destruct (String.eqb_spec s ""); [contradiction|].
  rewrite Hq, H1, H2, H3.
  unfold quote_delimited in Hq.
  destruct (PyStr.first s) as [x|] eqn:Hx; [|now destruct s].
  destruct (PyStr.last s) as [y|] eqn:Hy.
  - destruct (PyStr.is_quote x), (PyStr.is_quote y);
      try discriminate Hq; reflexivity.
  - exfalso. destruct s as [|c s]; [discriminate|]. clear - Hy.
    revert c Hy. induction s as [|d s IH]; intros c Hy;
      [discriminate | now apply (IH d)].
Qed.

(** ** Strings that start with a constructor name *)

(** What holds of C2: a string that starts with [to_timestamp] is the body
    of the text returned, with or without a store, and a string that starts
    with [to_date] is when no store is attached; the store and the wrapper
    are left as they were. *)
Lemma constructor_text_passes_through {imports : Imports} (is_oracledb : bool)
    (s : string) (a : option string) (kw : Kwargs) :
  (PyStr.startswith s "to_timestamp" = true ->
   forall pw : Store,
     ParameterizedValueWrapper.get_sql is_oracledb (mk_wrapper (VStr s) a) kw pw
       = Ok (format_alias_sql s a (kw_quote_char kw), mk_wrapper (VStr s) a, pw))
  /\ (PyStr.startswith s "to_date" = true ->
      ParameterizedValueWrapper.get_sql is_oracledb (mk_wrapper (VStr s) a) kw None
        = Ok (format_alias_sql s a (kw_quote_char kw), mk_wrapper (VStr s) a, None)).
Proof.
  unfold ParameterizedValueWrapper.get_sql. cbn [value alias constructor_text].
  split.
  - intros H [pw|]; now rewrite H.
  - intros H. rewrite H, orb_true_r. reflexivity.
Qed.

(** C2. A string that starts with [to_date] is bound when a store is
    attached: the text returned is the placeholder and the string goes to
    the store, while the same wrapper without a store returns the string
    itself. *)
Theorem to_date_text_bound {imports : Imports} (is_oracledb : bool)
    (kw : Kwargs) :
  ParameterizedValueWrapper.get_sql is_oracledb
    (mk_wrapper (VStr "to_date('2024-01-15', 'yyyy-mm-dd')") None) kw
    (Some NamedParameterWrapper.init) =
  Ok (format_alias_sql "%(param1)s" None (kw_quote_char kw),
      mk_wrapper (VStr "to_date('2024-01-15', 'yyyy-mm-dd')") None,
      Some {| NamedParameterWrapper.parameters :=
                [("param1",
                  get_value_sql (VStr "to_date('2024-01-15', 'yyyy-mm-dd')")
                    (kw_quote_char kw) None)] |})
  /\ ParameterizedValueWrapper.get_sql is_oracledb
       (mk_wrapper (VStr "to_date('2024-01-15', 'yyyy-mm-dd')") None) kw None =
     Ok (format_alias_sql "to_date('2024-01-15', 'yyyy-mm-dd')" None
           (kw_quote_char kw),
         mk_wrapper (VStr "to_date('2024-01-15', 'yyyy-mm-dd')") None, None).
Proof. split; reflexivity. Qed.

(** The same call with pypika's functions: [%(param1)s] is returned where
    the claim has the string itself. *)
Example sample_to_date_rendered :
  ParameterizedValueWrapper.get_sql (imports := Reference.imports) false
    (mk_wrapper (VStr "to_date('2024-01-15', 'yyyy-mm-dd')") None)
    sample_kwargs (Some NamedParameterWrapper.init) =
  Ok ("%(param1)s",
      mk_wrapper (VStr "to_date('2024-01-15', 'yyyy-mm-dd')") None,
      Some {| NamedParameterWrapper.parameters :=
                [("param1", "to_date('2024-01-15', 'yyyy-mm-dd')")] |}).
Proof. vm_compute. reflexivity. Qed.

(** ** The alias *)

(** C10. The alias is left out under [frappe.is_oracledb].  The branches
    for durations, times, datetimes and for the conversion return before
    [format_alias_sql] is reached: with pypika's functions an integer with
    the alias [total] renders as [5], where the same wrapper renders as
    [5 total] when [frappe.is_oracledb] is not set; and for any imports the
    text returned for a duration is the [to_timestamp] call alone, whatever
    the alias. *)
Theorem oracle_paths_skip_alias :
  ParameterizedValueWrapper.get_sql (imports := Reference.imports) true
    (mk_wrapper (VInt 5) (Some "total")) (mk_kwargs None None true) None =
  Ok ("5", mk_wrapper (VStr "5") (Some "total"), None)
  /\ ParameterizedValueWrapper.get_sql (imports := Reference.imports) false
       (mk_wrapper (VInt 5) (Some "total")) (mk_kwargs None None true) None =
     Ok ("5 total", mk_wrapper (VInt 5) (Some "total"), None)
  /\ forall (imports : Imports) (d : timedelta) (a : option string)
       (kw : Kwargs) (pw : Store),
       ParameterizedValueWrapper.get_sql true (mk_wrapper (VTimedelta d) a) kw pw
       = Ok (to_timestamp_ff6 (format_timedelta d),
             mk_wrapper (VStr (format_timedelta d)) a, pw).
Proof.
  split; [vm_compute; reflexivity|].
  split; [vm_compute; reflexivity|].
  intros imports d a kw [pw|]; reflexivity.
Qed.

(** ** What is stored for a string *)

Lemma intersperse_empty (s : string) : PyStr.intersperse "" s = s.
Proof. induction s as [|c s IH]; simpl; [reflexivity | now rewrite IH]. Qed.

Lemma append_empty_r (s : string) : s ++ "" = s.
Proof. induction s as [|c s IH]; simpl; [reflexivity | now rewrite IH]. Qed.

(** pypika's [get_value_sql] on a string: without a secondary quote
    character the string itself, with one the string between two of them,
    those inside doubled. *)
Lemma pypika_string_text (s : string) (qc : option string) :
  PyPika.get_value_sql (VStr s) qc None = s
  /\ PyPika.get_value_sql (VStr s) qc (Some "'") =
       "'" ++ PyStr.replace "'" "''" s ++ "'".
Proof.
  split; [|reflexivity].
  unfold PyPika.get_value_sql, PyPika.format_quotes, PyStr.replace.
  cbn. now rewrite append_empty_r, intersperse_empty.
Qed.

(** C3, amended.  A string that starts neither with [to_timestamp] nor
    with [to_date], rendered with a store attached: the text is first
    computed by
    [get_value_sql], called with [quote_char] and without the secondary
    quote character that the branch without a store passes; that text is
    stored under the key [param(n+1)], n being the size of the store; the
    text returned is the placeholder of that key, alias formatting applied;
    the wrapper is not changed.  With pypika's [get_value_sql] the text
    stored is the string itself, without quotes and with its quotes not
    doubled. *)
Theorem string_bound_as_rendered {imports : Imports} (is_oracledb : bool)
    (s : string) (a : option string) (kw : Kwargs)
    (pw : NamedParameterWrapper.t) :
  PyStr.startswith s "to_timestamp" = false ->
  PyStr.startswith s "to_date" = false ->
  ParameterizedValueWrapper.get_sql is_oracledb (mk_wrapper (VStr s) a) kw
    (Some pw) =
  Ok (format_alias_sql
        ("%(" ++ param_name (List.length (NamedParameterWrapper.parameters pw) + 1)
           ++ ")s")
        a (kw_quote_char kw),
      mk_wrapper (VStr s) a,
      Some {| NamedParameterWrapper.parameters :=
                dict_set (NamedParameterWrapper.parameters pw)
                  (param_name
                     (List.length (NamedParameterWrapper.parameters pw) + 1))
                  (get_value_sql (VStr s) (kw_quote_char kw) None) |})
  /\ PyPika.get_value_sql (VStr s) (kw_quote_char kw) None = s.
Proof.
  intros H _. split; [|apply pypika_string_text].
  unfold ParameterizedValueWrapper.get_sql. cbn [value alias].
  rewrite H, get_sql_bind. cbn [alias].
  repeat f_equal.
  destruct (bind pw (get_value_sql (VStr s) (kw_quote_char kw) None)) as [d] eqn:E.
  f_equal.
  change d with (NamedParameterWrapper.parameters {| NamedParameterWrapper.parameters := d |}).
  rewrite <- E. apply bind_parameters.
Qed.

(** [string_bound_as_rendered] on [O'Brien], from the empty store. *)
Lemma string_bound_as_rendered_witness :
  PyStr.startswith "O'Brien" "to_timestamp" = false
  /\ PyStr.startswith "O'Brien" "to_date" = false
  /\ ParameterizedValueWrapper.get_sql (imports := Reference.imports) false
       (mk_wrapper (VStr "O'Brien") None) sample_kwargs
       (Some NamedParameterWrapper.init) =
     Ok ("%(param1)s", mk_wrapper (VStr "O'Brien") None,
         Some {| NamedParameterWrapper.parameters := [("param1", "O'Brien")] |}).
Proof.
  split; [reflexivity|]. split; [reflexivity|].
  exact (proj1 (string_bound_as_rendered (imports := Reference.imports) false
                  "O'Brien" None sample_kwargs NamedParameterWrapper.init
                  eq_refl eq_refl)).
Defined.

(** C3 as stated fails: with pypika's functions the text stored for
    [O'Brien] is [O'Brien], while the literal computed for the same wrapper
    without a store is ['O''Brien']. *)
Lemma bound_text_not_quoted :
  ParameterizedValueWrapper.get_sql (imports := Reference.imports) false
    (mk_wrapper (VStr "O'Brien") None) sample_kwargs
    (Some NamedParameterWrapper.init) =
  Ok ("%(param1)s", mk_wrapper (VStr "O'Brien") None,
      Some {| NamedParameterWrapper.parameters := [("param1", "O'Brien")] |})
  /\ ParameterizedValueWrapper.get_sql (imports := Reference.imports) false
       (mk_wrapper (VStr "O'Brien") None) sample_kwargs None =
     Ok ("'O''Brien'", mk_wrapper (VStr "O'Brien") None, None)
  /\ "O'Brien" <> "'O''Brien'".
Proof.
  split; [vm_compute; reflexivity|].
  split; [vm_compute; reflexivity|].
  discriminate.
Qed.

(** ** The wrapper after rendering *)





(** * Further properties of the module *)

(** ** conversion_column_value: quotes *)

Lemma last_app_single (s : string) (c : ascii) :
  PyStr.last (s ++ String c "") = Some c.
Proof.
  induction s as [|a s IH]; [reflexivity|].
  cbn [append PyStr.last]. destruct s as [|b s]; [reflexivity|].
  exact IH.
Qed.

Lemma quote_delimited_wrapped (s : string) :
  quote_delimited ("'" ++ s ++ "'") = true.
Proof.
  unfold quote_delimited.
  change ("'" ++ s ++ "'") with (String PyStr.quote s ++ String PyStr.quote "").
  rewrite last_app_single. reflexivity.
Qed.

Lemma slice_1_1_wrapped (s : string) : PyStr.slice 1 1 ("'" ++ s ++ "'") = s.
Proof.
  unfold PyStr.slice. simpl String.length. rewrite length_append.
  simpl String.length.
  replace (S (String.length s + 1) - 1 - 1) with (String.length s) by lia.
  simpl. apply substring_prefix.
Qed.

(** Quotes around a text are not seen.  For a text that is not empty and
    not itself between quotes, the conversion of the text between quotes is
    the conversion of the text: a date between quotes becomes the same
    [to_date] call, and a plain text between quotes is quoted anew from its
    inside. *)
Theorem conversion_ignores_outer_quotes {imports : Imports} (s : string)
    (b : bool) :
  s <> "" -> quote_delimited s = false ->
  conversion_column_value (VStr ("'" ++ s ++ "'")) b =
    conversion_column_value (VStr s) b.
Proof.
  intros Hne Hq. unfold conversion_column_value.
  rewrite quote_delimited_wrapped, slice_1_1_wrapped, Hq.
  destruct (String.eqb_spec s ""); [contradiction|]. reflexivity.
Qed.

(** [conversion_ignores_outer_quotes] on a date. *)
Lemma conversion_ignores_outer_quotes_witness :
  "2024-01-15" <> ""
  /\ quote_delimited "2024-01-15" = false
  /\ conversion_column_value (imports := Reference.imports)
       (VStr ("'" ++ "2024-01-15" ++ "'")) true =
     conversion_column_value (imports := Reference.imports)
       (VStr "2024-01-15") true.
Proof.
  split; [discriminate|]. split; [reflexivity|].
  apply (conversion_ignores_outer_quotes (imports := Reference.imports)
           (s := "2024-01-15") true); [discriminate | reflexivity].
Defined.

Lemma prefix_empty (s : string) : String.prefix "" s = true.
Proof. destruct s; reflexivity. Qed.

Lemma prefix_quote_cons (c : ascii) (s : string) :
  String.prefix "'" (String c s) = PyStr.is_quote c.
Proof.
  cbn [String.prefix]. rewrite prefix_empty.
  unfold PyStr.is_quote, PyStr.quote.
  destruct (ascii_dec "'" c) as [<-|H]; [reflexivity|].
  symmetry. apply Ascii.eqb_neq. congruence.
Qed.

Lemma unescape_escape_from (s : string) :
  PyStr.replace_from "''" "'" 0 (PyStr.replace_from "'" "''" 0 s) = s.
Proof.
  induction s as [|c s IH]; [reflexivity|].
  cbn [PyStr.replace_from String.length Nat.sub].
  rewrite prefix_quote_cons.
  destruct (PyStr.is_quote c) eqn:Hc.
  - apply Ascii.eqb_eq in Hc. subst c.
    change ("''" ++ PyStr.replace_from "'" "''" 0 s)
      with (String "'" (String "'" (PyStr.replace_from "'" "''" 0 s))).
    cbn [PyStr.replace_from String.length Nat.sub].
    change (String.prefix "''"
              (String "'" (String "'" (PyStr.replace_from "'" "''" 0 s))))
      with (if ascii_dec "'" "'"
            then String.prefix "'"
                   (String "'" (PyStr.replace_from "'" "''" 0 s))
            else false).
    rewrite prefix_quote_cons.
    destruct (ascii_dec "'" "'") as [_|H]; [|congruence].
    change (PyStr.is_quote "'") with true. cbn iota.
    change ("'" ++ ?x) with (String "'" x).
    now rewrite IH.
  - cbn [PyStr.replace_from String.prefix].
    destruct (ascii_dec "'" c) as [E|_].
    + subst c. discriminate Hc.
    + now rewrite IH.
Qed.

Lemma unescape_escape (s : string) :
  PyStr.replace "''" "'" (PyStr.replace "'" "''" s) = s.
Proof. apply unescape_escape_from. Qed.

(** Quoting loses nothing.  The text that line 143 builds is the text
    between two quotes with its quotes doubled; cutting the outer quotes
    and replacing each pair of quotes by one gives the text back, whatever
    it holds. *)
Theorem quoting_round_trip (s : string) :
  quote_delimited (quoted s) = true
  /\ PyStr.replace "''" "'" (PyStr.slice 1 1 (quoted s)) = s.
Proof.
  unfold quoted. split; [apply quote_delimited_wrapped|].
  rewrite slice_1_1_wrapped. apply unescape_escape.
Qed.

(** The result for a string is SQL text of one of two shapes: a call of
    [to_timestamp] or [to_date], or a text that starts and ends with a
    quote. *)
Theorem conversion_result_shape {imports : Imports} (s : string) (b : bool)
    (r : string) :
  conversion_column_value (VStr s) b = Ok r ->
  PyStr.startswith r "to_timestamp" = true
  \/ PyStr.startswith r "to_date" = true
  \/ quote_delimited r = true.
Proof.
  unfold conversion_column_value.
  destruct (String.eqb s ""); [intros [= <-]; right; right; reflexivity|].
  set (inner := if quote_delimited s then PyStr.slice 1 1 s else s).
  destruct (b && Re.search_datetime_frac inner);
    [intros [= <-]; left; reflexivity|].
  destruct (b && Re.search_datetime inner);
    [intros [= <-]; left; reflexivity|].
  destruct (b && Re.search_date inner);
    [intros [= <-]; right; left; reflexivity|].
  destruct (PyStr.first inner) as [x|] eqn:Hx; [|discriminate].
  destruct (PyStr.last inner) as [y|] eqn:Hy; [|discriminate].
  destruct (PyStr.is_quote x) eqn:Qx, (PyStr.is_quote y) eqn:Qy;
    cbn [negb orb]; intros [= <-]; right; right;
    try apply quote_delimited_wrapped.
  unfold quote_delimited. now rewrite Hx, Hy, Qx, Qy.
Qed.

(** [conversion_result_shape] on a name with a quote inside. *)
Lemma conversion_result_shape_witness :
  conversion_column_value (imports := Reference.imports) (VStr "O'Brien") true
    = Ok "'O''Brien'"
  /\ (PyStr.startswith "'O''Brien'" "to_timestamp" = true
      \/ PyStr.startswith "'O''Brien'" "to_date" = true
      \/ quote_delimited "'O''Brien'" = true).
Proof.
  split; [reflexivity|].
  apply (conversion_result_shape (imports := Reference.imports)
           "O'Brien" true).
  reflexivity.
Defined.

(** ** conversion_column_value: the patterns *)

Lemma match_atoms_app (p q : list Re.atom) (s : string) :
  Re.match_atoms (p ++ q) s =
    match Re.match_atoms p s with
    | Some r => Re.match_atoms q r
    | None => None
    end.
Proof.
  revert s. induction p as [|a p IH]; intros s; [reflexivity|].
  destruct s as [|c s]; [reflexivity|]. cbn [Re.match_atoms app].
  destruct (Re.atom_matches a c); [apply IH | reflexivity].
Qed.

Lemma match_atoms_app_r (p : list Re.atom) (t r u : string) :
  Re.match_atoms p t = Some r -> Re.match_atoms p (t ++ u) = Some (r ++ u).
Proof.
  revert t. induction p as [|a p IH]; intros t; cbn [Re.match_atoms].
  - now intros [= ->].
  - destruct t as [|c t]; [discriminate|]. cbn [append].
    destruct (Re.atom_matches a c); [apply IH | discriminate].
Qed.

(** After a match that [$] accepts, nothing that starts with a literal
    other than the newline can follow. *)
Lemma nothing_after_dollar (r : string) (c : ascii) (q : list Re.atom) :
  Re.at_dollar r = true -> Ascii.eqb PyStr.newline c = false ->
  Re.match_atoms (Re.Lit c :: q ++ [Re.Digit]) r = None.
Proof.
  intros Hr Hc. destruct r as [|x [|y r]]; [reflexivity | | discriminate].
  cbn [Re.at_dollar] in Hr. apply Ascii.eqb_eq in Hr. subst x.
  cbn [Re.match_atoms Re.atom_matches]. rewrite Hc. reflexivity.
Qed.

Lemma date_excludes_datetime (s : string) :
  Re.search_date s = true ->
  Re.search_datetime s = false /\ Re.search_datetime_frac s = false.
Proof.
  unfold Re.search_date, Re.search_datetime, Re.search_datetime_frac.
  unfold Re.datetime_atoms. rewrite <- app_assoc, !match_atoms_app.
  destruct (Re.match_atoms Re.date_atoms s) as [r|]; [|discriminate].
  intros Hr. split.
  - change ([Re.Lit " "] ++ Re.d2 ++ [Re.Lit ":"] ++ Re.d2 ++ [Re.Lit ":"]
              ++ Re.d2)%list
      with (Re.Lit " " :: [Re.Digit; Re.Digit; Re.Lit ":"; Re.Digit; Re.Digit;
                           Re.Lit ":"; Re.Digit] ++ [Re.Digit])%list.
    now rewrite nothing_after_dollar.
  - change (([Re.Lit " "] ++ Re.d2 ++ [Re.Lit ":"] ++ Re.d2 ++ [Re.Lit ":"]
               ++ Re.d2) ++ [Re.Lit "."; Re.Digit])%list
      with (Re.Lit " " :: [Re.Digit; Re.Digit; Re.Lit ":"; Re.Digit; Re.Digit;
                           Re.Lit ":"; Re.Digit; Re.Digit; Re.Lit "."]
              ++ [Re.Digit])%list.
    now rewrite nothing_after_dollar.
Qed.

Lemma datetime_excludes_frac (s : string) :
  Re.search_datetime s = true -> Re.search_datetime_frac s = false.
Proof.
  unfold Re.search_datetime, Re.search_datetime_frac.
  rewrite match_atoms_app.
  destruct (Re.match_atoms Re.datetime_atoms s) as [r|]; [|discriminate].
  intros Hr.
  change [Re.Lit "."; Re.Digit] with (Re.Lit "." :: [] ++ [Re.Digit])%list.
  now rewrite nothing_after_dollar.
Qed.

(** The three patterns exclude each other: no string matches two of them,
    so the order in which lines 136 to 140 try them decides nothing. *)
Theorem patterns_exclusive (s : string) :
  Re.search_date s && Re.search_datetime s = false
  /\ Re.search_date s && Re.search_datetime_frac s = false
  /\ Re.search_datetime s && Re.search_datetime_frac s = false.
Proof.
  repeat split.
  - destruct (Re.search_date s) eqn:H; [|reflexivity].
    now destruct (date_excludes_datetime s H) as [-> _].
  - destruct (Re.search_date s) eqn:H; [|reflexivity].
    now destruct (date_excludes_datetime s H) as [_ ->].
  - destruct (Re.search_datetime s) eqn:H; [|reflexivity].
    now rewrite (datetime_excludes_frac s H).
Qed.

Lemma skip_digits_before_newline (r : string) :
  Re.skip_digits r = "" -> Re.skip_digits (r ++ newline_text) = newline_text.
Proof.
  induction r as [|c r IH]; [reflexivity|]. cbn [Re.skip_digits append].
  destruct (PyStr.is_digit c); [exact IH | discriminate].
Qed.

(** [$] lets one newline pass.  A date, a datetime or a datetime with a
    fraction followed by a newline still matches its pattern, and the
    newline goes into the constructor call with the rest of the string. *)
Theorem final_newline_accepted {imports : Imports} (t : string) :
  (Re.match_atoms Re.date_atoms t = Some "" ->
   conversion_column_value (VStr (t ++ newline_text)) true =
     Ok ("to_date('" ++ (t ++ newline_text) ++ "', 'yyyy-mm-dd')"))
  /\ (Re.match_atoms Re.datetime_atoms t = Some "" ->
      conversion_column_value (VStr (t ++ newline_text)) true =
        Ok ("to_timestamp('" ++ (t ++ newline_text)
              ++ "', 'yyyy-mm-dd hh24:mi:ss')"))
  /\ (forall r,
        Re.match_atoms (Re.datetime_atoms ++ [Re.Lit "."; Re.Digit]) t = Some r ->
        Re.skip_digits r = "" ->
        conversion_column_value (VStr (t ++ newline_text)) true =
          Ok ("to_timestamp('" ++ (t ++ newline_text)
                ++ "', 'yyyy-mm-dd hh24:mi:ss.ff6')")).
Proof.
  repeat split.
  - intros H.
    assert (Hd : Re.search_date (t ++ newline_text) = true).
    { unfold Re.search_date. now rewrite (match_atoms_app_r _ _ newline_text H). }
    destruct (date_excludes_datetime _ Hd) as [H1 H2].
    rewrite conversion_of_digit_string by now apply search_date_digit.
    now rewrite H2, H1, Hd.
  - intros H.
    assert (Hd : Re.search_datetime (t ++ newline_text) = true).
    { unfold Re.search_datetime.
      now rewrite (match_atoms_app_r _ _ newline_text H). }
    rewrite conversion_of_digit_string by now apply search_datetime_digit.
    now rewrite (datetime_excludes_frac _ Hd), Hd.
  - intros r H Hr.
    assert (Hd : Re.search_datetime_frac (t ++ newline_text) = true).
    { unfold Re.search_datetime_frac.
      rewrite (match_atoms_app_r _ _ newline_text H).
      now rewrite skip_digits_before_newline. }
    rewrite conversion_of_digit_string by now apply search_datetime_frac_digit.
    now rewrite Hd.
Qed.

(** [final_newline_accepted] on a date followed by a newline. *)
Lemma final_newline_accepted_witness :
  Re.match_atoms Re.date_atoms "2024-01-15" = Some ""
  /\ conversion_column_value (imports := Reference.imports)
       (VStr ("2024-01-15" ++ newline_text)) true =
     Ok ("to_date('" ++ ("2024-01-15" ++ newline_text) ++ "', 'yyyy-mm-dd')").
Proof.
  split; [reflexivity|].
  apply (proj1 (final_newline_accepted (imports := Reference.imports)
                  "2024-01-15")).
  reflexivity.
Defined.

(** ** NamedParameterWrapper: the store as a dictionary *)

Lemma dict_get_set_same (d : dict) (k v : string) :
  dict_get (dict_set d k v) k = Some v.
Proof.
  induction d as [|[k' v'] d IH]; cbn [dict_set dict_get].
  - now rewrite String.eqb_refl.
  - destruct (String.eqb k' k) eqn:E; cbn [dict_get]; now rewrite E.
Qed.

Lemma dict_get_set_other (d : dict) (k k' v : string) :
  k' <> k -> dict_get (dict_set d k v) k' = dict_get d k'.
Proof.
  intros Hk. induction d as [|[k0 v0] d IH]; cbn [dict_set dict_get].
  - destruct (String.eqb_spec k k'); [congruence | reflexivity].
  - destruct (String.eqb_spec k0 k) as [->|Hk0]; cbn [dict_get].
    + destruct (String.eqb_spec k k'); [congruence | reflexivity].
    + now rewrite IH.
Qed.

Lemma dict_set_present (d : dict) (k v : string) :
  In k (dict_keys d) -> dict_keys (dict_set d k v) = dict_keys d.
Proof.
  induction d as [|[k' v'] d IH]; cbn [dict_set dict_keys map fst In];
    [contradiction|].
  intros [->|Hin].
  - now rewrite String.eqb_refl.
  - destruct (String.eqb_spec k' k) as [->|_]; [reflexivity|].
    cbn [map fst]. f_equal. now apply IH.
Qed.

(** What [get_sql] stores is found again.  On any store, the placeholder
    returned is [%(key)s] for the key [param(n+1)], n being the number of
    entries; after the call the dictionary of [get_parameters] holds the
    value passed under that key, and every other key holds what it held
    before. *)
Theorem bound_value_found (pw : NamedParameterWrapper.t) (text : string) :
  fst (NamedParameterWrapper.get_sql pw text) =
    "%(" ++ param_name (List.length (NamedParameterWrapper.parameters pw) + 1)
      ++ ")s"
  /\ dict_get
       (NamedParameterWrapper.get_parameters
          (snd (NamedParameterWrapper.get_sql pw text)))
       (param_name (List.length (NamedParameterWrapper.parameters pw) + 1))
     = Some text
  /\ forall k : string,
       k <> param_name (List.length (NamedParameterWrapper.parameters pw) + 1) ->
       dict_get
         (NamedParameterWrapper.get_parameters
            (snd (NamedParameterWrapper.get_sql pw text))) k
       = dict_get (NamedParameterWrapper.get_parameters pw) k.
Proof.
  unfold NamedParameterWrapper.get_parameters.
  change (snd (NamedParameterWrapper.get_sql pw text)) with (bind pw text).
  rewrite bind_parameters. split; [reflexivity|]. split.
  - apply dict_get_set_same.
  - intros k Hk. now apply dict_get_set_other.
Qed.

Lemma get_sql_all_numbered (texts : list string) :
  forall pw : NamedParameterWrapper.t,
    numbered (NamedParameterWrapper.parameters pw) ->
    get_sql_all pw texts =
      (map placeholder
         (seq (List.length (NamedParameterWrapper.parameters pw) + 1)
            (List.length texts)),
       bind_all pw texts).
Proof.
  induction texts as [|text texts IH]; intros pw Hn; [reflexivity|].
  cbn [get_sql_all]. rewrite get_sql_bind.
  destruct (bind_numbered pw text Hn) as [E Hn'].
  rewrite (IH (bind pw text) Hn'), E, length_app. cbn [List.length seq map].
  now replace (List.length (NamedParameterWrapper.parameters pw) + 1 + 1)
    with (S (List.length (NamedParameterWrapper.parameters pw) + 1)) by lia.
Qed.

(** Calls on a new store.  Whatever texts are passed to a store made by
    [__init__], the i-th call returns the placeholder [%(parami)s], and
    after k calls [get_parameters] holds the k texts in the order of the
    calls under [param1] to [paramk]. *)
Theorem fresh_store_sequence (texts : list string) :
  get_sql_all NamedParameterWrapper.init texts =
    (map (fun i => "%(param" ++ PyStr.of_nat i ++ ")s")
       (seq 1 (List.length texts)),
     {| NamedParameterWrapper.parameters :=
          combine
            (map (fun i => "param" ++ PyStr.of_nat i)
               (seq 1 (List.length texts)))
            texts |}).
Proof.
  rewrite get_sql_all_numbered by reflexivity.
  destruct (bind_all_numbered texts NamedParameterWrapper.init) as [E _];
    [reflexivity|].
  destruct (bind_all NamedParameterWrapper.init texts) as [d].
  cbn in E. subst d. reflexivity.
Qed.

(** A store that already holds its next key.  The key is made from the
    number of entries alone: when an entry [param(n+1)] is already among
    the n entries (one of [param1], [param2] was taken out of the
    dictionary, say), [get_sql] writes over it: after the call that key
    holds the value passed, every other key holds what it held, the keys
    and their order (so the size) are as before, and the next call returns
    the same placeholder again. *)
Theorem store_collision (pw : NamedParameterWrapper.t) (text : string) :
  In (param_name (List.length (NamedParameterWrapper.parameters pw) + 1))
     (dict_keys (NamedParameterWrapper.parameters pw)) ->
  dict_get
    (NamedParameterWrapper.parameters
       (snd (NamedParameterWrapper.get_sql pw text)))
    (param_name (List.length (NamedParameterWrapper.parameters pw) + 1))
    = Some text
  /\ (forall k : string,
        k <> param_name (List.length (NamedParameterWrapper.parameters pw) + 1) ->
        dict_get
          (NamedParameterWrapper.parameters
             (snd (NamedParameterWrapper.get_sql pw text))) k
        = dict_get (NamedParameterWrapper.parameters pw) k)
  /\ dict_keys (NamedParameterWrapper.parameters
                  (snd (NamedParameterWrapper.get_sql pw text)))
     = dict_keys (NamedParameterWrapper.parameters pw)
  /\ forall text' : string,
       fst (NamedParameterWrapper.get_sql
              (snd (NamedParameterWrapper.get_sql pw text)) text')
       = fst (NamedParameterWrapper.get_sql pw text).
Proof.
  intros Hin.
  change (snd (NamedParameterWrapper.get_sql pw text)) with (bind pw text).
  assert (E : dict_keys (NamedParameterWrapper.parameters (bind pw text))
              = dict_keys (NamedParameterWrapper.parameters pw)).
  { rewrite bind_parameters. now apply dict_set_present. }
  split; [rewrite bind_parameters; apply dict_get_set_same|].
  split; [intros k Hk; rewrite bind_parameters; now apply dict_get_set_other|].
  split; [exact E|]. intros text'.
  rewrite !get_sql_bind. cbn [fst].
  apply (f_equal (@List.length string)) in E. unfold dict_keys in E.
  rewrite !length_map in E. now rewrite E.
Qed.

(** [store_collision] on a store whose entries are [param3] and [other]:
    the value under [param3] is written over, [other] keeps its value, and
    nothing is added. *)
Lemma store_collision_witness :
  In "param3" ["param3"; "other"]
  /\ NamedParameterWrapper.parameters
       (snd (NamedParameterWrapper.get_sql
               {| NamedParameterWrapper.parameters :=
                    [("param3", "x"); ("other", "o")] |} "y"))
     = [("param3", "y"); ("other", "o")]
  /\ dict_get
       (NamedParameterWrapper.parameters
          (snd (NamedParameterWrapper.get_sql
                  {| NamedParameterWrapper.parameters :=
                       [("param3", "x"); ("other", "o")] |} "y")))
       "param3" = Some "y"
  /\ fst (NamedParameterWrapper.get_sql
            (snd (NamedParameterWrapper.get_sql
                    {| NamedParameterWrapper.parameters :=
                         [("param3", "x"); ("other", "o")] |} "y")) "z")
     = "%(param3)s".
Proof.
  split; [left; reflexivity|]. split; [reflexivity|].
  destruct (store_collision
              {| NamedParameterWrapper.parameters :=
                   [("param3", "x"); ("other", "o")] |} "y")
    as [Hv [_ [_ Hp]]]; [left; reflexivity|].
  split; [exact Hv | exact (Hp "z")].
Defined.

(** ** When rendering raises *)

(** The conversion raises on the strings made of one quote or of two, and
    on nothing else; what it raises is [IndexError]. *)
Theorem conversion_raises_iff {imports : Imports} (v : Value) (b : bool) :
  conversion_column_value v b = Raise IndexError tt <-> lone_quotes v = true.
Proof.
  split.
  - intros H.
    destruct v; try discriminate H. cbn [lone_quotes].
    destruct (String.eqb_spec s "'") as [|H1]; [reflexivity|].
    destruct (String.eqb_spec s "''") as [|H2]; [reflexivity|].
    destruct (@conversion_returns_elsewhere _ (VStr s) b) as [r Hr];
      congruence.
  - destruct v; try discriminate. cbn [lone_quotes]. intros H.
    apply orb_true_iff in H. destruct H as [H|H];
      apply String.eqb_eq in H; subst s; destruct b; reflexivity.
Qed.

Section Raising.

Context {imports : Imports}.

Lemma value_get_sql_standard (w : ValueWrapper) (kw : Kwargs) (pw : Store) :
  exists r, ParameterizedValueWrapper.get_sql false w kw pw = Ok r.
Proof.
  destruct w as [v a]. unfold ParameterizedValueWrapper.get_sql.
  cbn [value alias].
  destruct v, pw as [pw|]; cbn [constructor_text];
    try (eexists; reflexivity).
  - destruct (PyStr.startswith s "to_timestamp"); eexists; reflexivity.
  - destruct (PyStr.startswith s "to_timestamp" || PyStr.startswith s "to_date");
      eexists; reflexivity.
Qed.

Lemma value_get_sql_oracle_literal (w : ValueWrapper) (kw : Kwargs) :
  if lone_quotes (value w)
  then ParameterizedValueWrapper.get_sql true w kw None = Raise IndexError None
  else exists sql w',
         ParameterizedValueWrapper.get_sql true w kw None = Ok (sql, w', None).
Proof.
  destruct w as [v a]. cbn [value].
  destruct v; cbn [lone_quotes]; try (eexists; eexists; reflexivity).
  destruct (String.eqb_spec s "'") as [->|H1]; [reflexivity|].
  destruct (String.eqb_spec s "''") as [->|H2]; [reflexivity|].
  cbn [orb]. unfold ParameterizedValueWrapper.get_sql. cbn [value alias].
  destruct (constructor_text (VStr s)); [eexists; eexists; reflexivity|].
  destruct (@conversion_returns_elsewhere _ (VStr s) true) as [r ->];
    try congruence.
  eexists; eexists; reflexivity.
Qed.

Lemma render_seq_returns (render : Term -> Store -> Rendered Term)
    (l : list Term) :
  Forall (fun p => forall pw, exists r, render p pw = Ok r) l ->
  forall pw, exists r, render_seq render l pw = Ok r.
Proof.
  induction 1 as [|p l Hp _ IH]; intros pw; cbn [render_seq].
  - eexists; reflexivity.
  - destruct (Hp pw) as [[[sql p'] pw1] ->].
    destruct (IH pw1) as [[[sqls l'] pw2] ->].
    eexists; reflexivity.
Qed.

Lemma render_seq_literal (render : Term -> Store -> Rendered Term)
    (holds : Term -> bool) (l : list Term) :
  Forall
    (fun p =>
       if holds p then render p None = Raise IndexError None
       else exists sql p', render p None = Ok (sql, p', None)) l ->
  if existsb holds l
  then render_seq render l None = Raise IndexError None
  else exists sqls l', render_seq render l None = Ok (sqls, l', None).
Proof.
  induction 1 as [|p l Hp _ IH]; cbn [render_seq existsb].
  - eexists; eexists; reflexivity.
  - destruct (holds p); cbn [orb].
    + now rewrite Hp.
    + destruct Hp as [sql [p' ->]].
      destruct (existsb holds l).
      * now rewrite IH.
      * destruct IH as [sqls [l' ->]]. eexists; eexists; reflexivity.
Qed.

Lemma get_sql_standard (term : Term) :
  forall (kw : Kwargs) (pw : Store),
  exists r, get_sql false term kw pw = Ok r.
Proof.
  induction term as [w | name schema args alias IH | subq alias IH]
    using Term_nested_ind; intros kw pw; cbn [get_sql].
  - destruct (value_get_sql_standard w kw pw) as [[[sql w'] pw'] ->].
    eexists; reflexivity.
  - match goal with
    | |- context [render_seq ?f args pw] =>
        destruct (render_seq_returns f (l := args)) with (pw := pw)
          as [[[sqls args'] pw'] ->]
    end.
    + eapply Forall_impl; [|exact IH]. intros p Hp. apply Hp.
    + eexists; reflexivity.
  - match goal with
    | |- context [render_seq ?f subq pw] =>
        destruct (render_seq_returns f (l := subq)) with (pw := pw)
          as [[[sqls subq'] pw'] ->]
    end.
    + eapply Forall_impl; [|exact IH]. intros p Hp. apply Hp.
    + eexists; reflexivity.
Qed.

Lemma get_sql_oracle_literal (term : Term) :
  forall kw : Kwargs,
  if holds_lone_quotes term
  then get_sql true term kw None = Raise IndexError None
  else exists sql term', get_sql true term kw None = Ok (sql, term', None).
Proof.
  induction term as [w | name schema args alias IH | subq alias IH]
    using Term_nested_ind; intros kw; cbn [get_sql holds_lone_quotes].
  - pose proof (value_get_sql_oracle_literal w kw) as H.
    destruct (lone_quotes (value w)).
    + now rewrite H.
    + destruct H as [sql [w' ->]]. eexists; eexists; reflexivity.
  - match goal with
    | |- context [render_seq ?f args None] =>
        pose proof (render_seq_literal f holds_lone_quotes (l := args)) as H
    end.
    destruct (existsb holds_lone_quotes args).
    + rewrite H; [reflexivity|].
      eapply Forall_impl; [|exact IH]. intros p Hp. apply Hp.
    + destruct H as [sqls [args' ->]].
      * eapply Forall_impl; [|exact IH]. intros p Hp. apply Hp.
      * eexists; eexists; reflexivity.
  - match goal with
    | |- context [render_seq ?f subq None] =>
        pose proof (render_seq_literal f holds_lone_quotes (l := subq)) as H
    end.
    destruct (existsb holds_lone_quotes subq).
    + rewrite H; [reflexivity|].
      eapply Forall_impl; [|exact IH]. intros p Hp. apply Hp.
    + destruct H as [sqls [subq' ->]].
      * eapply Forall_impl; [|exact IH]. intros p Hp. apply Hp.
      * eexists; eexists; reflexivity.
Qed.

End Raising.

(** When rendering returns and when it raises.  Rendering a term (a value,
    a function call, a subquery) returns a text whenever
    [frappe.is_oracledb] is not set, and whenever a store is attached.  With
    [frappe.is_oracledb] set and no store attached, it ends with
    [IndexError] when some value of the term is the string made of one
    quote or of two.  Both hold whatever the wrappers hold when they are
    reached, so also when one wrapper object sits at two places.  Nothing
    is said of the other terms under [frappe.is_oracledb] without a store:
    there a wrapper rendered twice is converted twice. *)
Theorem rendering_returns_or_raises {imports : Imports} (is_oracledb : bool)
    (term : Term) (kw : Kwargs) (pw : Store) :
  (is_oracledb = false \/ pw <> None ->
   exists r, get_sql is_oracledb term kw pw = Ok r)
  /\ (is_oracledb = true -> pw = None -> holds_lone_quotes term = true ->
      get_sql is_oracledb term kw pw = Raise IndexError None).
Proof.
  split.
  - intros [->|Hpw]; [apply get_sql_standard|].
    destruct pw as [pw|]; [|congruence].
    destruct (get_sql_with_store is_oracledb term kw pw) as [sql [term' E]].
    eexists; exact E.
  - intros -> -> Hh.
    pose proof (get_sql_oracle_literal term kw) as Hl. now rewrite Hh in Hl.
Qed.

(** [rendering_returns_or_raises] on a call whose second argument is the
    string made of one quote: with a store it returns, without one it
    raises. *)
Lemma rendering_returns_or_raises_witness :
  (exists r,
     get_sql (imports := Reference.imports) true
       (TFunction "f" None
          [TValue (mk_wrapper (VInt 1) None);
           TValue (mk_wrapper (VStr "'") None)] None)
       sample_kwargs (Some NamedParameterWrapper.init) = Ok r)
  /\ get_sql (imports := Reference.imports) true
       (TFunction "f" None
          [TValue (mk_wrapper (VInt 1) None);
           TValue (mk_wrapper (VStr "'") None)] None)
       sample_kwargs None = Raise IndexError None.
Proof.
  split.
  - apply (proj1 (rendering_returns_or_raises (imports := Reference.imports)
                    true _ sample_kwargs (Some NamedParameterWrapper.init))).
    right. discriminate.
  - apply (proj2 (rendering_returns_or_raises (imports := Reference.imports)
                    true _ sample_kwargs None)); reflexivity.
Defined.

(** ** The term after rendering, and rendering again *)

Section Again.

Context {imports : Imports}.

Lemma value_kept_standard (w : ValueWrapper) (kw : Kwargs) (pw : Store)
    sql w' pw' :
  is_temporal (value w) = false ->
  ParameterizedValueWrapper.get_sql false w kw pw = Ok (sql, w', pw') ->
  w' = w.
Proof.
  destruct w as [v a]. unfold ParameterizedValueWrapper.get_sql.
  cbn [value alias]. intros Ht E.
  destruct v, pw as [pw|]; try discriminate Ht;
    cbn [constructor_text] in E; split_tests E; inversion E; reflexivity.
Qed.

Lemma render_seq_kept (render : Term -> Store -> Rendered Term)
    (ok : Term -> bool) (l : list Term) :
  Forall
    (fun p =>
       forall pw sql p' pw',
         ok p = true -> render p pw = Ok (sql, p', pw') -> p' = p) l ->
  forall pw sqls l' pw',
    forallb ok l = true ->
    render_seq render l pw = Ok (sqls, l', pw') -> l' = l.
Proof.
  induction 1 as [|p l Hp _ IH]; intros pw sqls l' pw' Hok E;
    cbn [render_seq forallb] in *.
  - now inversion E.
  - apply andb_true_iff in Hok. destruct Hok as [Hok1 Hok2].
    destruct (render p pw) as [[[sql p'] pw1]|] eqn:E1; [|discriminate].
    destruct (render_seq render l pw1) as [[[sqls0 l0] pw2]|] eqn:E2;
      [|discriminate].
    inversion E; subst. f_equal; eauto.
Qed.

Lemma first_last_not_delimited (s : string) :
  s <> "" -> quote_delimited s = false ->
  exists x y,
    PyStr.first s = Some x /\ PyStr.last s = Some y
    /\ negb (PyStr.is_quote x) || negb (PyStr.is_quote y) = true.
Proof.
  intros Hne Hq. destruct s as [|c s]; [congruence|].
  destruct (PyStr.last (String c s)) as [y|] eqn:Hy.
  - exists c, y. unfold quote_delimited in Hq. rewrite Hy in Hq.
    cbn [PyStr.first] in *.
    repeat split. now destruct (PyStr.is_quote c), (PyStr.is_quote y).
  - exfalso. clear - Hy. revert c Hy.
    induction s as [|d s IH]; intros c Hy; [discriminate | now apply (IH d)].
Qed.

Lemma conversion_of_plain_text (r : string) :
  plain_text r = true ->
  constructor_text (VStr r) = None
  /\ conversion_column_value (VStr r) true =
       Ok ("'" ++ PyStr.replace "'" "''" r ++ "'").
Proof.
  unfold plain_text. rewrite !andb_true_iff, !negb_true_iff.
  intros [[[[[[H0 Hq] H1] H2] H3] H4] H5]. split.
  - cbn [constructor_text]. now rewrite H4, H5.
  - unfold conversion_column_value. rewrite H0, Hq, H1, H2, H3. cbn [andb].
    apply String.eqb_neq in H0.
    destruct (first_last_not_delimited H0 Hq) as [x [y [-> [-> ->]]]].
    reflexivity.
Qed.

End Again.

(** Rendering without [frappe.is_oracledb] keeps the term.  When no value
    of a term is a duration, a time or a datetime, the term after a call
    that returned is the term before it, with or without a store: nothing
    was assigned to any [self.value]. *)
Theorem standard_rendering_keeps_term {imports : Imports} (term : Term) :
  forall (kw : Kwargs) (pw : Store) (sql : string) (term' : Term)
         (pw' : Store),
    temporal_free term = true ->
    get_sql false term kw pw = Ok (sql, term', pw') ->
    term' = term.
Proof.
  induction term as [w | name schema args alias IH | subq alias IH]
    using Term_nested_ind; intros kw pw sql term' pw' Hf E;
    cbn [get_sql temporal_free] in *.
  - destruct (ParameterizedValueWrapper.get_sql false w kw pw)
      as [[[sql0 w'] pw0]|] eqn:Ew; [|discriminate].
    inversion E; subst. f_equal.
    apply negb_true_iff in Hf. eapply value_kept_standard; eauto.
  - match type of E with
    | context [render_seq ?f args pw] =>
        destruct (render_seq f args pw) as [[[sqls args'] pw0]|] eqn:Es;
          [|discriminate]
    end.
    inversion E; subst. f_equal.
    eapply render_seq_kept; [|exact Hf|exact Es].
    eapply Forall_impl; [|exact IH]. intros p Hp ? ? ? ? ? ?. eapply Hp; eauto.
  - match type of E with
    | context [render_seq ?f subq pw] =>
        destruct (render_seq f subq pw) as [[[sqls subq'] pw0]|] eqn:Es;
          [|discriminate]
    end.
    inversion E; subst. f_equal.
    eapply render_seq_kept; [|exact Hf|exact Es].
    eapply Forall_impl; [|exact IH]. intros p Hp ? ? ? ? ? ?. eapply Hp; eauto.
Qed.

(** [standard_rendering_keeps_term] on [sample_call]. *)
Lemma standard_rendering_keeps_term_witness :
  temporal_free sample_call = true
  /\ get_sql (imports := Reference.imports) false sample_call sample_kwargs
       (Some NamedParameterWrapper.init) =
     Ok ("concat(%(param1)s,SELECT %(param2)s,3,%(param3)s) `f`",
         sample_call,
         Some {| NamedParameterWrapper.parameters :=
                   [("param1", "a"); ("param2", "b"); ("param3", "c")] |})
  /\ sample_call = sample_call.
Proof.
  split; [reflexivity|]. split; [vm_compute; reflexivity|].
  apply (standard_rendering_keeps_term (imports := Reference.imports)
           sample_call sample_kwargs (Some NamedParameterWrapper.init)
           (sql := "concat(%(param1)s,SELECT %(param2)s,3,%(param3)s) `f`")
           (pw' := Some {| NamedParameterWrapper.parameters :=
                             [("param1", "a"); ("param2", "b"); ("param3", "c")] |}));
    [reflexivity | vm_compute; reflexivity].
Defined.

(** Rendering twice under [frappe.is_oracledb].  A value that is neither a
    string nor a duration, time or datetime is rendered without a store as
    the text of the conversion ([NULL], the digits of a number, the text of
    a date) and the wrapper then holds that text as a string.  When the
    text is plain, the next rendering of the same wrapper returns it
    between quotes. *)
Theorem oracle_second_rendering_quotes {imports : Imports} (v : Value)
    (a : option string) (kw : Kwargs) (r : string) :
  is_str v = false -> is_temporal v = false ->
  conversion_column_value v true = Ok r ->
  ParameterizedValueWrapper.get_sql true (mk_wrapper v a) kw None =
    Ok (r, mk_wrapper (VStr r) a, None)
  /\ (plain_text r = true ->
      ParameterizedValueWrapper.get_sql true (mk_wrapper (VStr r) a) kw None =
        Ok ("'" ++ PyStr.replace "'" "''" r ++ "'",
            mk_wrapper (VStr ("'" ++ PyStr.replace "'" "''" r ++ "'")) a,
            None)).
Proof.
  intros Hs Ht Hc. split.
  - unfold ParameterizedValueWrapper.get_sql. cbn [value alias].
    destruct v; try discriminate Hs; try discriminate Ht;
      cbn [constructor_text]; rewrite Hc; reflexivity.
  - intros Hp. destruct (conversion_of_plain_text r Hp) as [H1 H2].
    unfold ParameterizedValueWrapper.get_sql. cbn [value alias].
    rewrite H1, H2. reflexivity.
Qed.

(** [oracle_second_rendering_quotes] on [None]: [NULL], then ['NULL']. *)
Lemma oracle_second_rendering_quotes_witness :
  ParameterizedValueWrapper.get_sql (imports := Reference.imports) true
    (mk_wrapper VNone None) sample_kwargs None =
  Ok ("NULL", mk_wrapper (VStr "NULL") None, None)
  /\ ParameterizedValueWrapper.get_sql (imports := Reference.imports) true
       (mk_wrapper (VStr "NULL") None) sample_kwargs None =
     Ok ("'NULL'", mk_wrapper (VStr "'NULL'") None, None).
Proof.
  destruct (oracle_second_rendering_quotes (imports := Reference.imports)
              VNone None sample_kwargs (r := "NULL")
              eq_refl eq_refl eq_refl) as [H1 H2].
  split; [exact H1 | exact (H2 eq_refl)].
Defined.

(** Rendering a duration, a time or a datetime twice with a store, without
    [frappe.is_oracledb].  The first call binds nothing and leaves the
    formatted text in the wrapper as a string; unless that text starts with
    [to_timestamp], the second call binds it and returns a placeholder. *)
Theorem temporal_second_rendering_bound {imports : Imports} (v : Value)
    (f : string) (a : option string) (kw : Kwargs)
    (pw : NamedParameterWrapper.t) :
  temporal_text v = Some f ->
  PyStr.startswith f "to_timestamp" = false ->
  (exists sql,
     ParameterizedValueWrapper.get_sql false (mk_wrapper v a) kw (Some pw) =
       Ok (sql, mk_wrapper (VStr f) a, Some pw))
  /\ ParameterizedValueWrapper.get_sql false (mk_wrapper (VStr f) a) kw
       (Some pw) =
     Ok (format_alias_sql
           (fst (NamedParameterWrapper.get_sql pw
                   (get_value_sql (VStr f) (kw_quote_char kw) None)))
           a (kw_quote_char kw),
         mk_wrapper (VStr f) a,
         Some (snd (NamedParameterWrapper.get_sql pw
                      (get_value_sql (VStr f) (kw_quote_char kw) None)))).
Proof.
  intros Hv Hf. split.
  - destruct v; try discriminate Hv; cbn [temporal_text] in Hv;
      injection Hv as <-; eexists; reflexivity.
  - unfold ParameterizedValueWrapper.get_sql. cbn [value alias].
    rewrite Hf. reflexivity.
Qed.

(** [temporal_second_rendering_bound] on a duration of one hour and one
    minute. *)
Lemma temporal_second_rendering_bound_witness :
  (exists sql,
     ParameterizedValueWrapper.get_sql (imports := Reference.imports) false
       (mk_wrapper (VTimedelta one_hour_one_minute) None) sample_kwargs
       (Some NamedParameterWrapper.init) =
     Ok (sql, mk_wrapper (VStr "1:01:00") None,
         Some NamedParameterWrapper.init))
  /\ ParameterizedValueWrapper.get_sql (imports := Reference.imports) false
       (mk_wrapper (VStr "1:01:00") None) sample_kwargs
       (Some NamedParameterWrapper.init) =
     Ok ("%(param1)s", mk_wrapper (VStr "1:01:00") None,
         Some {| NamedParameterWrapper.parameters :=
                   [("param1", "1:01:00")] |}).
Proof.
  exact (temporal_second_rendering_bound (imports := Reference.imports)
           (VTimedelta one_hour_one_minute) (f := "1:01:00") None
           sample_kwargs NamedParameterWrapper.init eq_refl eq_refl).
Defined.

(** ** Aliases and the store *)

Section Aliases.

Context {imports : Imports}.
Variable is_oracledb : bool.

Lemma value_alias_same_effect (v : Value) (a1 a2 : option string)
    (kw : Kwargs) (pw : Store) :
  same_effect
    (ParameterizedValueWrapper.get_sql is_oracledb (mk_wrapper v a1) kw pw)
    (ParameterizedValueWrapper.get_sql is_oracledb (mk_wrapper v a2) kw pw).
Proof.
  unfold ParameterizedValueWrapper.get_sql. cbn [value alias].
  destruct v, pw as [pw|], is_oracledb; cbn [constructor_text];
    repeat match goal with
           | |- context [if ?c then _ else _] => destruct c
           | |- context [match conversion_column_value ?x ?b with _ => _ end] =>
               destruct (conversion_column_value x b)
           end;
    cbn; auto.
Qed.

Lemma render_seq_same_effect (f g : Term -> Store -> Rendered Term)
    (h : Term -> Term) (l : list Term) :
  Forall (fun p => forall pw, same_effect (f p pw) (g (h p) pw)) l ->
  forall pw, same_effect (render_seq f l pw) (render_seq g (map h l) pw).
Proof.
  induction 1 as [|p l Hp _ IH]; intros pw; cbn [render_seq map].
  - reflexivity.
  - specialize (Hp pw).
    destruct (f p pw) as [[[s1 p1] pw1]|e1 pw1],
             (g (h p) pw) as [[[s2 p2] pw2]|e2 pw2];
      cbn in Hp; try contradiction; [subst pw2 | exact Hp].
    specialize (IH pw1).
    destruct (render_seq f l pw1) as [[[ss1 l1] pw3]|e3 pw3],
             (render_seq g (map h l) pw1) as [[[ss2 l2] pw4]|e4 pw4];
      cbn in IH; try contradiction; exact IH.
Qed.

End Aliases.

(** Aliases never reach the store.  For a term made of values and
    function calls, at any depth, rendering the term and rendering it with
    every alias taken off either both return or both raise, and leave the
    same store: an alias is used to format the text and for nothing
    else. *)
Theorem alias_never_affects_store {imports : Imports} (is_oracledb : bool)
    (term : Term) :
  subquery_free term = true ->
  forall (kw : Kwargs) (pw : Store),
    same_effect (get_sql is_oracledb term kw pw)
                (get_sql is_oracledb (without_alias term) kw pw).
Proof.
  induction term as [w | name schema args alias IH | subq alias IH]
    using Term_nested_ind; intros Hf kw pw;
    cbn [get_sql without_alias subquery_free] in *; [| |discriminate].
  - destruct w as [v a]. cbn [value].
    pose proof (value_alias_same_effect is_oracledb v a None kw pw) as H.
    destruct (ParameterizedValueWrapper.get_sql is_oracledb (mk_wrapper v a) kw pw)
      as [[[s1 w1] pw1]|e1 pw1],
      (ParameterizedValueWrapper.get_sql is_oracledb (mk_wrapper v None) kw pw)
      as [[[s2 w2] pw2]|e2 pw2]; cbn in H |- *; auto.
  - match goal with
    | |- context [render_seq ?f args pw] =>
        pose proof (render_seq_same_effect f f without_alias (l := args)) as H
    end.
    assert (Hall : Forall
              (fun p => forall pw0,
                 same_effect
                   (get_sql is_oracledb p
                      {| kw_quote_char := kw_quote_char kw;
                         kw_secondary_quote_char := None;
                         kw_with_alias := false |} pw0)
                   (get_sql is_oracledb (without_alias p)
                      {| kw_quote_char := kw_quote_char kw;
                         kw_secondary_quote_char := None;
                         kw_with_alias := false |} pw0)) args).
    { rewrite Forall_forall in IH |- *. intros p Hin pw0.
      apply IH; [exact Hin|].
      rewrite forallb_forall in Hf. now apply Hf. }
    specialize (H Hall pw).
    match goal with
    | |- context [render_seq ?f args pw] =>
        destruct (render_seq f args pw) as [[[ss1 l1] pw1]|e1 pw1],
                 (render_seq f (map without_alias args) pw)
                   as [[[ss2 l2] pw2]|e2 pw2]
    end; cbn in H |- *; auto.
Qed.

(** [alias_never_affects_store] on a call with an alias whose first
    argument has one too. *)
Lemma alias_never_affects_store_witness :
  subquery_free
    (TFunction "concat" None
       [TValue (mk_wrapper (VStr "a") (Some "x"));
        TValue (mk_wrapper (VInt 3) None)] (Some "f")) = true
  /\ same_effect
       (get_sql (imports := Reference.imports) false
          (TFunction "concat" None
             [TValue (mk_wrapper (VStr "a") (Some "x"));
              TValue (mk_wrapper (VInt 3) None)] (Some "f"))
          sample_kwargs (Some NamedParameterWrapper.init))
       (get_sql (imports := Reference.imports) false
          (without_alias
             (TFunction "concat" None
                [TValue (mk_wrapper (VStr "a") (Some "x"));
                 TValue (mk_wrapper (VInt 3) None)] (Some "f")))
          sample_kwargs (Some NamedParameterWrapper.init)).
Proof.
  split; [reflexivity|].
  apply (alias_never_affects_store (imports := Reference.imports) false).
  reflexivity.
Defined.

(** ** Instances of the lemmas on constructor names and plain texts *)

(** [constructor_text_passes_through] on a [to_timestamp] call with a store
    attached. *)
Lemma constructor_text_passes_through_witness :
  PyStr.startswith "to_timestamp('1:01:00', 'yyyy-mm-dd hh24:mi:ss.ff6')"
    "to_timestamp" = true
  /\ ParameterizedValueWrapper.get_sql (imports := Reference.imports) false
       (mk_wrapper
          (VStr "to_timestamp('1:01:00', 'yyyy-mm-dd hh24:mi:ss.ff6')") None)
       sample_kwargs (Some NamedParameterWrapper.init) =
     Ok ("to_timestamp('1:01:00', 'yyyy-mm-dd hh24:mi:ss.ff6')",
         mk_wrapper
           (VStr "to_timestamp('1:01:00', 'yyyy-mm-dd hh24:mi:ss.ff6')") None,
         Some NamedParameterWrapper.init).
Proof.
  split; [reflexivity|].
  exact (proj1
           (constructor_text_passes_through (imports := Reference.imports)
              false "to_timestamp('1:01:00', 'yyyy-mm-dd hh24:mi:ss.ff6')"
              None sample_kwargs)
           eq_refl (Some NamedParameterWrapper.init)).
Defined.

(** [conversion_quotes_plain_text] on a name with a quote inside. *)
Lemma conversion_quotes_plain_text_witness :
  "O'Brien" <> ""
  /\ quote_delimited "O'Brien" = false
  /\ conversion_column_value (imports := Reference.imports) (VStr "O'Brien")
       true = Ok "'O''Brien'".
Proof.
  split; [discriminate|]. split; [reflexivity|].
  apply (conversion_quotes_plain_text (imports := Reference.imports)
           (s := "O'Brien") true);
    [discriminate | reflexivity | reflexivity | reflexivity | reflexivity].
Defined.
